(** * PumpSwap dashboard: the proxy route and the detail page

    A shallow embedding of

    - [src/app/api/pumpswap/route.ts] (the [GET] handler that forwards the
      DefiLlama protocol document), and
    - the detail page component [PumpSwapPage] (state, data fetch, the
      two formatters, [prepareChartData] and the JSX it returns),

    followed by the properties of the written specification, each stated
    over these definitions.

    JavaScript numbers are IEEE-754 binary64 values; they are modelled by
    [spec_float] of the standard library, so that [0], [-0], [NaN] and the
    infinities are all present and truthiness, comparison and rounding are
    the ones of the language. *)

From Stdlib Require Import ZArith List String Ascii Bool Lia.
From Stdlib Require Import SpecFloat DecimalString.
Import ListNotations.

Local Open Scope string_scope.
Local Open Scope Z_scope.

Set Warnings "-register-all".

(** ** JavaScript numbers *)

Module JSNumber.

Definition number : Type := spec_float.

Definition prec : Z := 53.
Definition emax : Z := 1024.

(** A number is a value of the binary64 format. *)
Definition is_double (x : number) : bool := valid_binary prec emax x.

(** The number denoted by an integer literal. *)
Definition of_Z (z : Z) : number := binary_normalize prec emax z 0 false.

(** The number denoted by the decimal literal [n / 10^k], e.g. [-3.456]
    is [of_decimal (-3456) 3]: the correctly rounded quotient of two
    exactly representable integers. *)
Definition of_decimal (n : Z) (k : nat) : number :=
  SFdiv prec emax (of_Z n) (of_Z (10 ^ Z.of_nat k)).

(** [ToBoolean]: [+0], [-0] and [NaN] are falsy, every other number is
    truthy. *)
Definition ToBoolean (x : number) : bool :=
  match x with
  | S754_zero _ | S754_nan => false
  | S754_infinity _ | S754_finite _ _ _ => true
  end.

(** [x >= 0] and [x < 0]; both are false on [NaN]. *)
Definition ge0 (x : number) : bool := SFleb (S754_zero false) x.
Definition lt0 (x : number) : bool := SFltb x (S754_zero false).

(** [x * y], rounded to nearest-even. *)
Definition mul (x y : number) : number := SFmul prec emax x y.

(** Decimal digits of a natural number, ["0"] for zero. *)
Definition digits (n : Z) : string :=
  NilZero.string_of_uint (N.to_uint (Z.to_N n)).

(** An integer in a template literal. *)
Definition integer_toString (z : Z) : string :=
  if z <? 0 then "-" ++ digits (- z) else digits z.

(** The integer nearest to [m * 2^e * 10^f]; of two equally near ones
    the larger.  This is the [n] of [Number.prototype.toFixed] and, on a
    magnitude, the half-expand rounding of [Intl.NumberFormat]. *)
Definition nearest_scaled (m : positive) (e : Z) (f : nat) : Z :=
  let p := 10 ^ Z.of_nat f in
  if 0 <=? e then Z.pos m * 2 ^ e * p
  else (2 * Z.pos m * p + 2 ^ (- e)) / 2 ^ (- e + 1).

(** [10^k <= m * 2^e]. *)
Definition magnitude_ge_pow10 (m : positive) (e : Z) (k : nat) : bool :=
  if 0 <=? e then 10 ^ Z.of_nat k <=? Z.pos m * 2 ^ e
  else 10 ^ Z.of_nat k * 2 ^ (- e) <=? Z.pos m.

Fixpoint zeros (k : nat) : string :=
  match k with
  | O => ""
  | S k' => String "0" (zeros k')
  end.

(** The digits of [n] with a point before the last [f] of them, padded
    with leading zeros to [f + 1] digits. *)
Definition fixed_point (n : Z) (f : nat) : string :=
  let m := digits n in
  match f with
  | O => m
  | S _ =>
      let m := zeros (S f - String.length m) ++ m in
      let k := String.length m in
      substring 0 (k - f) m ++ "." ++ substring (k - f) f m
  end.

Section Host.

(** [Number::toString] of a finite non-zero number.  The language
    standard leaves the last digit of the shortest representation to
    the implementation, so it is a parameter of the model. *)
Variable finite_toString : bool -> positive -> Z -> string.

Definition toString (x : number) : string :=
  match x with
  | S754_nan => "NaN"
  | S754_zero _ => "0"
  | S754_infinity s => if s then "-Infinity" else "Infinity"
  | S754_finite s m e => finite_toString s m e
  end.

(** [x.toFixed(f)] for [0 <= f <= 100]. *)
Definition toFixed (x : number) (f : nat) : string :=
  match x with
  | S754_nan | S754_infinity _ => toString x
  | S754_zero _ => fixed_point 0 f
  | S754_finite s m e =>
      if magnitude_ge_pow10 m e 21 then toString x
      else (if s then "-" else "") ++ fixed_point (nearest_scaled m e f) f
  end.

End Host.

End JSNumber.
Import JSNumber.

(** ** [Intl.NumberFormat("en-US", { style: "currency", currency: "USD",
       maximumFractionDigits: 0 })] *)

Module Intl.

(** Grouping separators: a comma before every group of three digits,
    counted from the right. *)
Fixpoint group_thousands (s : string) : string :=
  match s with
  | EmptyString => EmptyString
  | String c rest =>
      let n := String.length rest in
      if (negb (n =? 0)%nat && (n mod 3 =? 0)%nat)%bool
      then String c (String "," (group_thousands rest))
      else String c (group_thousands rest)
  end.

(** Whether the integer [D] reads back as the double [m * 2^e]: it lies
    within half the distance to the neighbouring doubles, the bounds
    included when [m] is even (ties go to even).  The double below is
    nearer when [m] is the least mantissa [2^52]. *)
Definition reads_back (m : positive) (e : Z) (D : Z) : bool :=
  let v := Z.pos m * 2 ^ e in
  let above := 2 ^ e in
  let below := if Z.pos m =? 2 ^ 52 then 2 ^ (e - 1) else 2 ^ e in
  if Z.even (Z.pos m) then
    (2 * v - below <=? 2 * D) && (2 * D <=? 2 * v + above)
  else
    (2 * v - below <? 2 * D) && (2 * D <? 2 * v + above).

(** The multiple of [10^q] that reads back as [m * 2^e], if there is
    one: of the two multiples around the value the nearer, and of two
    equally near ones the one with the even last digit. *)
Definition rounded_to (m : positive) (e : Z) (q : Z) : option Z :=
  let v := Z.pos m * 2 ^ e in
  let p := 10 ^ q in
  let low := v / p * p in
  let high := low + p in
  match reads_back m e low, reads_back m e high with
  | true, true =>
      Some match 2 * (v - low) ?= p with
           | Lt => low
           | Gt => high
           | Eq => if Z.even (low / p) then low else high
           end
  | true, false => Some low
  | false, true => Some high
  | false, false => None
  end.

Fixpoint shortest_from (fuel : nat) (m : positive) (e : Z) (q best : Z) : Z :=
  match fuel with
  | O => best
  | S fuel' =>
      match rounded_to m e (q + 1) with
      | Some D => shortest_from fuel' m e (q + 1) D
      | None => best
      end
  end.

(** The integer with the fewest significant digits that reads back as
    the double [m * 2^e], for an integral double ([0 <= e]): its digits
    are the shortest ones, and zeros follow them.  A double is below
    [2^1024], so the search ends within 400 steps. *)
Definition shortest_integer (m : positive) (e : Z) : Z :=
  shortest_from 400 m e 0 (Z.pos m * 2 ^ e).

(** The digits that are printed for the magnitude [m * 2^e] with no
    fraction digits.  Below [2^53] it is the nearest integer, a tie
    going away from zero.  From [2^53] on the value is an integer, and
    the formatter prints its shortest digits and pads them with zeros. *)
Definition integer_digits (m : positive) (e : Z) : string :=
  if (0 <=? e) && (2 ^ 53 <=? Z.pos m * 2 ^ e) then digits (shortest_integer m e)
  else digits (nearest_scaled m e 0).

(** The en-US currency pattern is [¤#,##0] with the sign in front of the
    symbol; no fraction digits are kept. *)
Definition format_currency_USD (x : number) : string :=
  match x with
  | S754_nan => "$NaN"
  | S754_infinity s => (if s then "-" else "") ++ "$∞"
  | S754_zero s => (if s then "-" else "") ++ "$0"
  | S754_finite s m e =>
      (if s then "-" else "") ++ "$" ++ group_thousands (integer_digits m e)
  end.

End Intl.

(** ** [Date] and [toLocaleDateString("en-US", { month: "numeric",
       day: "numeric" })] *)

Module JSDate.

Definition msPerDay : Z := 86400000.
Definition maxTime : Z := 8640000000000000.

(** [bound < m * 2^e]. *)
Definition magnitude_gt (m : positive) (e : Z) (bound : Z) : bool :=
  if 0 <=? e then bound <? Z.pos m * 2 ^ e
  else bound * 2 ^ (- e) <? Z.pos m.

(** [TimeClip]: the time value of [new Date(v)], in milliseconds since
    the epoch; [None] is the invalid date.  A finite [v] is truncated
    towards zero. *)
Definition TimeClip (v : number) : option Z :=
  match v with
  | S754_nan | S754_infinity _ => None
  | S754_zero _ => Some 0
  | S754_finite s m e =>
      if magnitude_gt m e maxTime then None
      else
        let t := if 0 <=? e then Z.pos m * 2 ^ e else Z.pos m / 2 ^ (- e) in
        Some (if s then - t else t)
  end.

(** Month (1..12) and day of the month (1..31) of a day number counted
    from 1970-01-01 in the proleptic Gregorian calendar.  Days are
    re-based on 0000-03-01 so that the leap day ends the year; a
    400-year era has 146097 days. *)
Definition month_day (day : Z) : Z * Z :=
  let doe := (day + 719468) mod 146097 in
  let yoe := (doe - doe / 1460 + doe / 36524 - doe / 146096) / 365 in
  let doy := doe - (365 * yoe + yoe / 4 - yoe / 100) in
  let mp := (5 * doy + 2) / 153 in
  let d := doy - (153 * mp + 2) / 5 + 1 in
  let m := if mp <? 10 then mp + 3 else mp - 9 in
  (m, d).

Section Host.

(** Offset of the host's time zone from UTC, in milliseconds, at a
    given time value. *)
Variable LocalTZA : Z -> Z.

Definition toLocaleDateString_month_day (tv : option Z) : string :=
  match tv with
  | None => "Invalid Date"
  | Some t =>
      let '(m, d) := month_day ((t + LocalTZA t) / msPerDay) in
      digits m ++ "/" ++ digits d
  end.

End Host.

End JSDate.

(** ** The detail page: data model *)

(** [interface ChartDataPoint] *)
Record ChartDataPoint := {
  date : number;                 (* Unix timestamp *)
  totalLiquidityUSD : number;
}.

(** [interface PumpSwapData]; an optional property that is missing is
    [None].  [chainTvls] is an object used as a map: its own properties
    in enumeration order. *)
Record PumpSwapData := {
  name : option string;
  description : option string;
  tvl : option number;
  chainTvls : option (list (string * number));
  change_1d : option number;
  change_7d : option number;
  change_1m : option number;
  category : option string;
  tvlPrevDay : option number;
  tvlPrevWeek : option number;
  tvlPrevMonth : option number;
}.

(** The object [{}]. *)
Definition empty_snapshot : PumpSwapData :=
  {| name := None; description := None; tvl := None; chainTvls := None;
     change_1d := None; change_7d := None; change_1m := None;
     category := None; tvlPrevDay := None; tvlPrevWeek := None;
     tvlPrevMonth := None |}.

(** The argument of [<Line data=... />]: one dataset and its labels. *)
Record Dataset := {
  ds_label : string;
  ds_data : list number;
  ds_borderColor : string;
  ds_backgroundColor : string;
  ds_borderWidth : number;
  ds_pointRadius : number;
  ds_pointHoverRadius : number;
  ds_fill : bool;
  ds_tension : number;
}.

Record ChartJSData := {
  labels : list string;
  datasets : list Dataset;
}.

(** ** The detail page: state *)

(** The five [useState] cells of [PumpSwapPage]. *)
Record State := {
  data : option PumpSwapData;    (* PumpSwapData | null *)
  chartData : list ChartDataPoint;
  loading : bool;
  error : option string;         (* string | null *)
  activeTab : string;
}.

Definition initial : State :=
  {| data := None; chartData := []; loading := true; error := None;
     activeTab := "tvl" |}.

(** The state setters the component calls.  [setChartData] is bound by
    the [useState] destructuring but has no call site, so it is not among
    them. *)
Inductive Action :=
| setData (result : option PumpSwapData)
| setError (msg : option string)
| setLoading (b : bool)
| setActiveTab (tab : string).

Definition dispatch (a : Action) (st : State) : State :=
  match a with
  | setData result =>
      {| data := result; chartData := chartData st; loading := loading st;
         error := error st; activeTab := activeTab st |}
  | setError msg =>
      {| data := data st; chartData := chartData st; loading := loading st;
         error := msg; activeTab := activeTab st |}
  | setLoading b =>
      {| data := data st; chartData := chartData st; loading := b;
         error := error st; activeTab := activeTab st |}
  | setActiveTab tab =>
      {| data := data st; chartData := chartData st; loading := loading st;
         error := error st; activeTab := tab |}
  end.

Definition run (acts : list Action) (st : State) : State :=
  fold_left (fun s a => dispatch a s) acts st.

(** ** Exceptions *)

(** A computation either returns or throws. *)
Inductive completion (E A : Type) :=
| Return (a : A)
| Throw (e : E).
Arguments Return {E A} a.
Arguments Throw {E A} e.

Definition bind {E A B} (c : completion E A) (k : A -> completion E B)
  : completion E B :=
  match c with
  | Return a => k a
  | Throw e => Throw e
  end.

Notation "x <- c ;; k" := (bind c (fun x => k))
  (at level 61, c at next level, right associativity).

(** ** The detail page: the mount effect *)

Module Client.

(** What the page's [fetch("/api/pumpswap")] resolves to: [ok] and the
    outcome of [response.json()]. *)
Record Response := {
  ok : bool;
  json : completion string (option PumpSwapData);
}.

(** The [try] block of [fetchData], up to the value handed to
    [setData]. *)
Definition fetchData_try (fetched : completion string Response)
  : completion string (option PumpSwapData) :=
  response <- fetched ;;
  if negb (ok response) then Throw "Failed to fetch data"
  else
    result <- json response ;;
    Return result.

(** The setter calls of one run of [fetchData], in order: the [try] or
    the [catch] block, then [finally]. *)
Definition fetchData (fetched : completion string Response) : list Action :=
  match fetchData_try fetched with
  | Return result => [setData result]
  | Throw _ => [setError (Some "Failed to load PumpSwap data")]
  end ++ [setLoading false].

End Client.

(** One state change of the page: a setter call made by the mount effect
    or by a click on one of the four tab buttons. *)
Inductive step : State -> State -> Prop :=
| step_setData result st : step st (dispatch (setData result) st)
| step_setError st :
    step st (dispatch (setError (Some "Failed to load PumpSwap data")) st)
| step_setLoading st : step st (dispatch (setLoading false) st)
| step_tab tab st :
    In tab ["tvl"; "volume"; "fees"; "revenue"] ->
    step st (dispatch (setActiveTab tab) st).

Inductive reachable : State -> Prop :=
| reachable_initial : reachable initial
| reachable_step st st' : reachable st -> step st st' -> reachable st'.

(** ** The detail page: what it renders *)

(** The element tree returned by the component.  [key] props and the
    constant [options] prop of the chart are not part of it; a button
    carries the setter call of its [onClick]. *)
Inductive node :=
| Text (s : string)
| Elem (tag className : string) (children : list node)
| Link (href className : string) (children : list node)
| Button (className : string) (onClick : Action) (children : list node)
| Line (chart : ChartJSData).

(** All text of a tree, in document order. *)
Fixpoint texts (n : node) : list string :=
  match n with
  | Text s => [s]
  | Elem _ _ cs | Link _ _ cs | Button _ _ cs => flat_map texts cs
  | Line _ => []
  end.

(** Whether the tree mounts the chart component. *)
Fixpoint mounts_Line (n : node) : bool :=
  match n with
  | Text _ => false
  | Elem _ _ cs | Link _ _ cs | Button _ _ cs => existsb mounts_Line cs
  | Line _ => true
  end.

(** Whether [sub] occurs in the tree [n]. *)
Section Occurs.
Variable sub : node.

Inductive occurs : node -> Prop :=
| occurs_here : occurs sub
| occurs_Elem tag cls cs c : In c cs -> occurs c -> occurs (Elem tag cls cs)
| occurs_Link href cls cs c : In c cs -> occurs c -> occurs (Link href cls cs)
| occurs_Button cls a cs c : In c cs -> occurs c -> occurs (Button cls a cs).
End Occurs.

(** A string-valued JSX child: [undefined] renders nothing. *)
Definition child_string (s : option string) : list node :=
  match s with
  | Some s => [Text s]
  | None => []
  end.

(** Truthiness of a string: the empty string is falsy. *)
Definition ToBoolean_string (s : string) : bool :=
  negb (String.eqb s "").

Section PumpSwapPage.

Variable finite_toString : bool -> positive -> Z -> string.
Variable LocalTZA : Z -> Z.

Definition formatCurrency (value : number) : string :=
  Intl.format_currency_USD value.

Definition formatDate (timestamp : number) : string :=
  JSDate.toLocaleDateString_month_day LocalTZA
    (JSDate.TimeClip (mul timestamp (of_Z 1000))).

(** [array.slice(start)] *)
Definition slice {A} (l : list A) (start : Z) : list A :=
  let len := Z.of_nat (List.length l) in
  let k := if start <? 0 then Z.max (len + start) 0 else Z.min start len in
  skipn (Z.to_nat k) l.

Definition prepareChartData (chartData : list ChartDataPoint) : ChartJSData :=
  (* Get last 30 days of data for the chart *)
  let recentData := slice chartData (-30) in
  {| labels := map (fun item => formatDate (date item)) recentData;
     datasets :=
       [ {| ds_label := "Total Value Locked (TVL)";
            ds_data := map (fun item => totalLiquidityUSD item) recentData;
            ds_borderColor := "rgb(34, 197, 94)";
            ds_backgroundColor := "rgba(34, 197, 94, 0.1)";
            ds_borderWidth := of_Z 2;
            ds_pointRadius := of_Z 0;
            ds_pointHoverRadius := of_Z 4;
            ds_fill := true;
            ds_tension := of_decimal 3 1 |} ] |}.

(** The header: the name and the [data.tvl && ...] block.  A falsy
    number on the left of [&&] is itself the child and is rendered as
    text. *)
Definition header (d : PumpSwapData) : node :=
  Elem "div"
    "flex flex-col md:flex-row justify-between items-start md:items-center mb-6"
    (Elem "h1" "text-3xl font-bold" (child_string (name d))
     :: match tvl d with
        | None => []
        | Some v =>
            if ToBoolean v then
              [Elem "div" "mt-2 md:mt-0"
                 [Elem "p" "text-sm text-gray-500" [Text "Total Value Locked"];
                  Elem "p" "text-2xl font-bold" [Text (formatCurrency v)]]]
            else [Text (toString finite_toString v)]
        end).

Definition tab_button (activeTab tab caption : string) : node :=
  Button
    ("px-4 py-2 rounded-md "
     ++ (if String.eqb activeTab tab then "bg-green-600 text-white"
         else "bg-gray-200"))
    (setActiveTab tab)
    [Text caption].

(** The [h-80] box: the chart, or the placeholder when there are no
    chart points. *)
Definition chart_area (chartData : list ChartDataPoint) : node :=
  Elem "div" "h-80 mt-6"
    [if (0 <? Z.of_nat (List.length chartData)) then
       Line (prepareChartData chartData)
     else
       Elem "div" "flex justify-center items-center h-full"
         [Elem "p" "" [Text "No chart data available"]]].

Definition chart_card (st : State) : node :=
  Elem "div" "mb-8"
    [Elem "div" "bg-white rounded-lg shadow-sm p-4 mb-4"
       [Elem "div" "flex space-x-2 mb-4"
          [tab_button (activeTab st) "tvl" "TVL";
           tab_button (activeTab st) "volume" "Volume";
           tab_button (activeTab st) "fees" "Fees";
           tab_button (activeTab st) "revenue" "Revenue"];
        chart_area (chartData st)]].

(** [change && change >= 0] *)
Definition is_gain (change : option number) : bool :=
  match change with
  | Some x => ToBoolean x && ge0 x
  | None => false
  end.

(** One of the three badges of the performance card; the source
    repeats this element for [change_1d], [change_7d] and
    [change_1m]. *)
Definition change_badge (period : string) (change : option number) : node :=
  Elem "div"
    ("p-4 rounded-lg " ++ (if is_gain change then "bg-green-50" else "bg-red-50"))
    [Elem "p" "text-sm text-gray-500" [Text period];
     Elem "p"
       ("font-bold "
        ++ (if is_gain change then "text-green-600" else "text-red-600"))
       [Text match change with
             | Some x =>
                 if ToBoolean x then toFixed finite_toString x 2 ++ "%"
                 else "N/A"
             | None => "N/A"
             end]].

Definition information_card (d : PumpSwapData) : node :=
  Elem "div" "bg-white p-6 rounded-lg shadow-sm"
    [Elem "h3" "text-xl font-bold mb-4" [Text "Information"];
     Elem "p" "text-gray-700 mb-4" (child_string (description d));
     Elem "p" "mb-2"
       (Elem "span" "font-semibold text-gray-600" [Text "Category:"]
        :: Text " " :: child_string (category d))].

Definition performance_card (d : PumpSwapData) : node :=
  Elem "div" "bg-white p-6 rounded-lg shadow-sm"
    [Elem "h3" "text-xl font-bold mb-4" [Text "Performance"];
     Elem "div" "grid grid-cols-3 gap-4"
       [change_badge "24h" (change_1d d);
        change_badge "7d" (change_7d d);
        change_badge "30d" (change_1m d)]].

Definition chain_card (entry : string * number) : node :=
  let '(chain, value) := entry in
  Elem "div" "p-4 bg-gray-50 rounded-lg"
    [Elem "p" "font-semibold" [Text chain];
     Elem "p" "" [Text (formatCurrency value)]].

(** [data.chainTvls && Object.keys(data.chainTvls).length > 0 && ...]:
    [undefined] and [false] render nothing. *)
Definition chain_distribution (d : PumpSwapData) : list node :=
  match chainTvls d with
  | None => []
  | Some entries =>
      if 0 <? Z.of_nat (List.length (map fst entries)) then
        [Elem "div" "bg-white p-6 rounded-lg shadow-sm"
           [Elem "h3" "text-xl font-bold mb-4" [Text "Chain Distribution"];
            Elem "div" "grid grid-cols-2 sm:grid-cols-3 md:grid-cols-4 gap-4"
              (map chain_card entries)]]
      else []
  end.

(** The fragment shown when [data] is truthy. *)
Definition ready_content (st : State) (d : PumpSwapData) : list node :=
  [header d;
   chart_card st;
   Elem "div" "grid grid-cols-1 md:grid-cols-2 gap-6 mb-8"
     [information_card d; performance_card d]]
  ++ chain_distribution d.

(** The children of the [max-w-6xl] container: the chain of
    conditionals on [loading], [error] and [data]. *)
Definition content (st : State) : list node :=
  if loading st then
    [Elem "div" "flex justify-center items-center h-64"
       [Elem "p" "" [Text "Loading data..."]]]
  else
    match error st with
    | Some e =>
        if ToBoolean_string e then [Elem "p" "text-red-500" [Text e]]
        else
          match data st with
          | Some d => ready_content st d
          | None => [Elem "p" "" [Text "No data available"]]
          end
    | None =>
        match data st with
        | Some d => ready_content st d
        | None => [Elem "p" "" [Text "No data available"]]
        end
    end.

Definition PumpSwapPage (st : State) : node :=
  Elem "div" "min-h-screen p-8 bg-gray-50"
    [Link "/" "text-blue-500 hover:underline mb-4 inline-block"
       [Text "‚Üê Back to Home"];
     Elem "div" "max-w-6xl mx-auto" (content st)].

End PumpSwapPage.

(** The page is ready: the fetch is over, no error is recorded and
    [data] holds the snapshot [d]. *)
Definition ready (st : State) (d : PumpSwapData) : Prop :=
  loading st = false /\ error st = None /\ data st = Some d.

(** A badge of the performance card in its red style with the text
    ["N/A"], and in its green style with a given text. *)
Definition red_badge (period text : string) : node :=
  Elem "div" "p-4 rounded-lg bg-red-50"
    [Elem "p" "text-sm text-gray-500" [Text period];
     Elem "p" "font-bold text-red-600" [Text text]].

Definition green_badge (period text : string) : node :=
  Elem "div" "p-4 rounded-lg bg-green-50"
    [Elem "p" "text-sm text-gray-500" [Text period];
     Elem "p" "font-bold text-green-600" [Text text]].

(** The placeholder of the chart box. *)
Definition chart_placeholder (text : string) : node :=
  Elem "div" "h-80 mt-6"
    [Elem "div" "flex justify-center items-center h-full"
       [Elem "p" "" [Text text]]].

(** ** The proxy route: [GET /api/pumpswap] *)

Module Route.

(** A parsed JSON document. *)
Inductive JSON :=
| JNull
| JBool (b : bool)
| JNumber (n : number)
| JString (s : string)
| JArray (items : list JSON)
| JObject (members : list (string * JSON)).

(** What the upstream [fetch] resolves to: the status line and the
    outcome of [response.json()]. *)
Record Response := {
  status : Z;
  json : completion string JSON;
}.

(** [response.ok] *)
Definition ok (response : Response) : bool :=
  (200 <=? status response) && (status response <=? 299).

(** What the handler answers with. *)
Record NextResponse := {
  body : JSON;
  http_status : Z;
}.

(** The document that the text [JSON.stringify(data)] denotes.  A number
    that is not finite is written [null] and [-0] is written [0]; every
    other value is written so that it reads back as itself. *)
Fixpoint stringify (data : JSON) : JSON :=
  match data with
  | JNumber (S754_nan | S754_infinity _) => JNull
  | JNumber (S754_zero _) => JNumber (S754_zero false)
  | JNumber (S754_finite _ _ _) | JNull | JBool _ | JString _ => data
  | JArray items => JArray (map stringify items)
  | JObject members =>
      JObject (map (fun member => (fst member, stringify (snd member))) members)
  end.

(** Whether every number of a document is finite and not [-0]. *)
Fixpoint plain_numbers (data : JSON) : bool :=
  match data with
  | JNumber (S754_nan | S754_infinity _) => false
  | JNumber (S754_zero s) => negb s
  | JNumber (S754_finite _ _ _) | JNull | JBool _ | JString _ => true
  | JArray items => forallb plain_numbers items
  | JObject members => forallb (fun member => plain_numbers (snd member)) members
  end.

(** [NextResponse.json(body, init)]: the body is serialised with
    [JSON.stringify]; the status defaults to 200. *)
Definition NextResponse_json (body : JSON) (init_status : option Z)
  : NextResponse :=
  {| body := stringify body;
     http_status := match init_status with Some s => s | None => 200 end |}.

(** The [try] block. *)
Definition GET_try (fetched : completion string Response)
  : completion string NextResponse :=
  response <- fetched ;;
  if negb (ok response) then
    Throw ("Failed to fetch data: " ++ integer_toString (status response))
  else
    data <- json response ;;
    Return (NextResponse_json data None).

Definition error_envelope : NextResponse :=
  NextResponse_json
    (JObject [("error", JString "Failed to fetch data from DefiLlama")])
    (Some 500).

(** The handler: its answer and the lines it writes with
    [console.error] (the message and the caught value). *)
Definition GET (fetched : completion string Response)
  : NextResponse * list (string * string) :=
  match GET_try fetched with
  | Return answer => (answer, [])
  | Throw error =>
      (error_envelope, [("Error fetching DefiLlama data:", error)])
  end.

(** The upstream call failed: [fetch] rejected, the status is not 2xx,
    or the body is not JSON. *)
Definition upstream_failed (fetched : completion string Response) : bool :=
  match fetched with
  | Throw _ => true
  | Return response =>
      negb (ok response)
      || match json response with Throw _ => true | Return _ => false end
  end.

End Route.

(** ** The chart options *)

(** [x / y], rounded to nearest-even, and [x >= y]. *)
Definition div (x y : number) : number := SFdiv prec emax x y.
Definition ge (x y : number) : bool := SFleb y x.

(** [interface ChartTooltipContext]: [dataset.label] and [parsed.y]. *)
Record ChartTooltipContext := {
  dataset_label : option string;
  parsed_y : option number;      (* number | null *)
}.

Section ChartOptions.

Variable finite_toString : bool -> positive -> Z -> string.

(** [chartOptions.scales.y.ticks.callback] *)
Definition ticks_callback (value : number) : string :=
  if ge value (of_Z 1000000) then
    "$" ++ toFixed finite_toString (div value (of_Z 1000000)) 0 ++ "m"
  else if ge value (of_Z 1000) then
    "$" ++ toFixed finite_toString (div value (of_Z 1000)) 0 ++ "k"
  else "$" ++ toString finite_toString value.

(** [chartOptions.plugins.tooltip.callbacks.label] *)
Definition tooltip_label (context : ChartTooltipContext) : string :=
  let label :=
    match dataset_label context with
    | Some l => if ToBoolean_string l then l else ""
    | None => ""
    end in
  let label := if ToBoolean_string label then label ++ ": " else label in
  match parsed_y context with
  | Some y => label ++ formatCurrency y
  | None => label
  end.

End ChartOptions.

(** ** The home page *)

Definition Home : node :=
  Elem "div"
    "grid grid-rows-[20px_1fr_20px] items-center justify-items-center min-h-screen p-8 pb-20 gap-16 sm:p-20 font-[family-name:var(--font-geist-sans)]"
    [Elem "main" "flex flex-col gap-[32px] row-start-2 items-center sm:items-start"
       [Elem "h1" "text-4xl font-bold" [Text "Bia Bokhoresh!"];
        Elem "div" "mt-6"
          [Link "/pumpswap"
             "px-4 py-2 bg-blue-500 text-white rounded-md hover:bg-blue-600 transition-colors"
             [Text "View PumpSwap Data"]]]].

(** The targets of the links of a tree, in document order. *)
Fixpoint hrefs (n : node) : list string :=
  match n with
  | Text _ | Line _ => []
  | Elem _ _ cs | Button _ _ cs => flat_map hrefs cs
  | Link href _ cs => href :: flat_map hrefs cs
  end.

(** The buttons of a tree, each with its class and its click handler. *)
Fixpoint buttons (n : node) : list (string * Action) :=
  match n with
  | Text _ | Line _ => []
  | Elem _ _ cs | Link _ _ cs => flat_map buttons cs
  | Button cls a cs => (cls, a) :: flat_map buttons cs
  end.

(** The buttons drawn in the style of the active tab. *)
Definition highlighted (n : node) : list (string * Action) :=
  filter
    (fun b => String.eqb (fst b) "px-4 py-2 rounded-md bg-green-600 text-white")
    (buttons n).

(** ** The page and the route together *)

(** What the page's [fetch] makes of the route's answer: [ok] is read
    off the status, and [json()] reads the body; how a JSON document is
    taken for a [PumpSwapData | null] is left to [decode]. *)
Definition fetch_route
  (decode : Route.JSON -> completion string (option PumpSwapData))
  (answer : Route.NextResponse) : Client.Response :=
  {| Client.ok := (200 <=? Route.http_status answer)
                  && (Route.http_status answer <=? 299);
     Client.json := decode (Route.body answer) |}.

(** A reader of documents at the type [PumpSwapData | null], for the
    worked examples: [null] is [null], and an object gives the snapshot
    whose properties are its members of the declared names.  A document
    in which such a member has another type than the declared one is
    outside the typed model and is refused. *)
Definition member (key : string) (members : list (string * Route.JSON))
  : option Route.JSON :=
  option_map snd (find (fun m => String.eqb (fst m) key) members).

Definition optional_string (j : option Route.JSON)
  : completion string (option string) :=
  match j with
  | None => Return None
  | Some (Route.JString s) => Return (Some s)
  | Some _ => Throw "not a string"
  end.

Definition optional_number (j : option Route.JSON)
  : completion string (option number) :=
  match j with
  | None => Return None
  | Some (Route.JNumber n) => Return (Some n)
  | Some _ => Throw "not a number"
  end.

Fixpoint number_members (members : list (string * Route.JSON))
  : completion string (list (string * number)) :=
  match members with
  | [] => Return []
  | (key, Route.JNumber n) :: rest =>
      entries <- number_members rest ;;
      Return ((key, n) :: entries)
  | _ :: _ => Throw "not a number"
  end.

Definition optional_numbers (j : option Route.JSON)
  : completion string (option (list (string * number))) :=
  match j with
  | None => Return None
  | Some (Route.JObject members) =>
      entries <- number_members members ;;
      Return (Some entries)
  | Some _ => Throw "not an object"
  end.

Definition snapshot_of_json (document : Route.JSON)
  : completion string (option PumpSwapData) :=
  match document with
  | Route.JNull => Return None
  | Route.JObject ms =>
      name <- optional_string (member "name" ms) ;;
      description <- optional_string (member "description" ms) ;;
      tvl <- optional_number (member "tvl" ms) ;;
      chainTvls <- optional_numbers (member "chainTvls" ms) ;;
      change_1d <- optional_number (member "change_1d" ms) ;;
      change_7d <- optional_number (member "change_7d" ms) ;;
      change_1m <- optional_number (member "change_1m" ms) ;;
      category <- optional_string (member "category" ms) ;;
      tvlPrevDay <- optional_number (member "tvlPrevDay" ms) ;;
      tvlPrevWeek <- optional_number (member "tvlPrevWeek" ms) ;;
      tvlPrevMonth <- optional_number (member "tvlPrevMonth" ms) ;;
      Return (Some {| name := name; description := description; tvl := tvl;
                      chainTvls := chainTvls; change_1d := change_1d;
                      change_7d := change_7d; change_1m := change_1m;
                      category := category; tvlPrevDay := tvlPrevDay;
                      tvlPrevWeek := tvlPrevWeek;
                      tvlPrevMonth := tvlPrevMonth |})
  | _ => Throw "not an object"
  end.

(** The page after its mount effect, when the route is called with the
    given upstream outcome. *)
Definition page_after
  (decode : Route.JSON -> completion string (option PumpSwapData))
  (upstream : completion string Route.Response) : State :=
  run (Client.fetchData (Return (fetch_route decode (fst (Route.GET upstream)))))
      initial.

(** ** Helpers for statements about printed numbers *)

Definition is_digit (c : ascii) : bool :=
  (48 <=? nat_of_ascii c)%nat && (nat_of_ascii c <=? 57)%nat.

Fixpoint all_digits (s : string) : bool :=
  match s with
  | EmptyString => true
  | String c rest => is_digit c && all_digits rest
  end.

(** [n] is the integer nearest to [m * 2^e * 10^f], of two equally near
    ones the larger. *)
Definition is_nearest (n : Z) (m : positive) (e : Z) (f : nat) : Prop :=
  0 <= n
  /\ if 0 <=? e then n = Z.pos m * 2 ^ e * 10 ^ Z.of_nat f
     else - 2 ^ (- e) < 2 * (n * 2 ^ (- e) - Z.pos m * 10 ^ Z.of_nat f)
                       <= 2 ^ (- e).

(** The page shows its ready content. *)
Definition shows_ready (st : State) : bool :=
  negb (loading st)
  && match error st with Some e => negb (ToBoolean_string e) | None => true end
  && match data st with Some _ => true | None => false end.

(** The page's own fetch failed: it rejected, the answer is not ok, or
    its body does not parse. *)
Definition fetch_failed (fetched : completion string Client.Response) : bool :=
  match fetched with
  | Throw _ => true
  | Return response =>
      negb (Client.ok response)
      || match Client.json response with Throw _ => true | Return _ => false end
  end.

(** ** A host for the worked examples *)

(** The time zone UTC. *)
Definition UTC (t : Z) : Z := 0.

(** No worked example converts a finite non-zero number with
    [Number::toString], so any function will do for it. *)
Definition no_finite_toString (s : bool) (m : positive) (e : Z) : string := "".

(** A snapshot with every kind of field, and the two states the page is
    in after its fetch resolved with that snapshot and with [{}]. *)
Definition sample_snapshot : PumpSwapData :=
  {| name := Some "PumpSwap";
     description := Some "Decentralized exchange";
     tvl := Some (of_Z 1234567);
     chainTvls := Some [("Solana", of_Z 500000)];
     change_1d := Some (of_decimal (-3456) 3);
     change_7d := Some (of_Z 0);
     change_1m := None;
     category := Some "Dexes";
     tvlPrevDay := None; tvlPrevWeek := None; tvlPrevMonth := None |}.

Definition after_fetch (result : option PumpSwapData) : State :=
  run (Client.fetchData
         (Return {| Client.ok := true; Client.json := Return result |}))
      initial.

(** * Properties *)

(** ** Numbers and formatting *)

Lemma of_Z_0 : of_Z 0 = S754_zero false.
Proof. reflexivity. Qed.

Lemma ToBoolean_zero s : ToBoolean (S754_zero s) = false.
Proof. reflexivity. Qed.

Lemma ge0_zero s : ge0 (S754_zero s) = true.
Proof. reflexivity. Qed.

(** A truthy number is either [>= 0] or [< 0]. *)
Lemma truthy_ge0_or_lt0 x :
  ToBoolean x = true -> ge0 x = negb (lt0 x).
Proof.
  destruct x as [s|[|]| |[|] m e]; simpl; intros H; try discriminate;
    reflexivity.
Qed.

(** [nearest_scaled] is within one half of the scaled value: for a
    negative exponent [e], [|n * 2^-e - m * 10^f| <= 2^-e / 2]. *)
Lemma nearest_scaled_half m e f :
  e < 0 ->
  let n := nearest_scaled m e f in
  - 2 ^ (- e) < 2 * (n * 2 ^ (- e) - Z.pos m * 10 ^ Z.of_nat f) <= 2 ^ (- e).
Proof.
  intros He n. subst n. unfold nearest_scaled.
  destruct (0 <=? e) eqn:E; [apply Z.leb_le in E; lia|].
  set (k := - e). set (p := 10 ^ Z.of_nat f).
  assert (Hk : 0 < 2 ^ k) by (apply Z.pow_pos_nonneg; lia).
  replace (k + 1) with (Z.succ k) by lia.
  rewrite Z.pow_succ_r by lia.
  set (a := 2 * Z.pos m * p + 2 ^ k).
  pose proof (Z.div_mod a (2 * 2 ^ k) ltac:(lia)) as Hdm.
  pose proof (Z.mod_pos_bound a (2 * 2 ^ k) ltac:(lia)) as Hmod.
  subst a. nia.
Qed.

(** For a non-negative exponent the scaled value is an integer and
    [nearest_scaled] is that integer. *)
Lemma nearest_scaled_exact m e f :
  0 <= e -> nearest_scaled m e f = Z.pos m * 2 ^ e * 10 ^ Z.of_nat f.
Proof.
  intros He. unfold nearest_scaled.
  destruct (0 <=? e) eqn:E; [reflexivity|apply Z.leb_gt in E; lia].
Qed.

(** The literal [-3.456] is a binary64 value, a little above [-3.456]. *)
Example of_decimal_example :
  of_decimal (-3456) 3 = S754_finite true 7782220156096217 (-51)
  /\ is_double (of_decimal (-3456) 3) = true
  /\ lt0 (of_decimal (-3456) 3) = true.
Proof. repeat split. Qed.

Example toFixed_example :
  toFixed no_finite_toString (of_decimal (-3456) 3) 2 = "-3.46".
Proof. vm_compute. reflexivity. Qed.

Example formatCurrency_example :
  formatCurrency (of_Z 1234567) = "$1,234,567".
Proof. vm_compute. reflexivity. Qed.

(** From [2^53] on the shortest digits are printed, padded with zeros:
    [2^57] is 144115188075855872. *)
Example formatCurrency_large :
  formatCurrency (of_Z (2 ^ 57)) = "$144,115,188,075,855,870"
  /\ formatCurrency (of_Z (2 ^ 60)) = "$1,152,921,504,606,847,000"
  /\ formatCurrency (of_Z 123456789012345680000)
     = "$123,456,789,012,345,680,000"
  /\ formatCurrency (of_Z (2 ^ 53 - 1)) = "$9,007,199,254,740,991".
Proof. repeat split; vm_compute; reflexivity. Qed.

Example formatDate_example :
  formatDate UTC (of_Z 1700006400) = "11/15"
  /\ formatDate (fun _ => - 18000000) (of_Z 1700006400) = "11/14".
Proof. split; vm_compute; reflexivity. Qed.

Lemma length_zeros k : String.length (zeros k) = k.
Proof. induction k as [|k IH]; simpl; congruence. Qed.

Lemma length_append (s1 s2 : string) :
  String.length (s1 ++ s2) = (String.length s1 + String.length s2)%nat.
Proof. induction s1 as [|c s1 IH]; simpl; congruence. Qed.

Lemma length_substring (s : string) (n m : nat) :
  (n + m <= String.length s)%nat -> String.length (substring n m s) = m.
Proof.
  revert n m. induction s as [|c s IH]; intros [|n] [|m] H; simpl in *;
    try reflexivity; try lia.
  - f_equal. apply (IH 0%nat). lia.
  - apply IH. lia.
  - apply IH. lia.
Qed.

Lemma substring_split (s : string) (k : nat) :
  (k <= String.length s)%nat ->
  substring 0 k s ++ substring k (String.length s - k) s = s.
Proof.
  revert k. induction s as [|c s IH]; intros [|k] H; simpl in *;
    try reflexivity; try lia.
  - f_equal. specialize (IH 0%nat ltac:(lia)). simpl in IH.
    replace (String.length s - 0)%nat with (String.length s) in IH by lia.
    destruct s; simpl in *; [reflexivity|]. exact IH.
  - f_equal. apply IH. lia.
Qed.

(** With two fraction digits, [fixed_point] prints the digits of [n],
    padded on the left with zeros, and a point before the last two. *)
Lemma fixed_point_2 n :
  exists int frac k,
    fixed_point n 2 = int ++ "." ++ frac
    /\ String.length frac = 2%nat
    /\ (1 <= String.length int)%nat
    /\ int ++ frac = zeros k ++ digits n.
Proof.
  unfold fixed_point.
  set (m := zeros (3 - String.length (digits n)) ++ digits n).
  assert (Hlen : (3 <= String.length m)%nat).
  { subst m. rewrite length_append, length_zeros. lia. }
  exists (substring 0 (String.length m - 2) m),
         (substring (String.length m - 2) 2 m),
         (3 - String.length (digits n))%nat.
  split; [reflexivity|].
  split; [apply length_substring; lia|].
  split; [rewrite length_substring; lia|].
  pose proof (substring_split m (String.length m - 2) ltac:(lia)) as Hsplit.
  replace (String.length m - (String.length m - 2))%nat with 2%nat in Hsplit
    by lia.
  exact Hsplit.
Qed.

(** A finite number below [10^21] in magnitude is printed by
    [toFixed(2)] as its sign, the digits of the integer [n] nearest to a
    hundred times its magnitude, and a point before the last two. *)
Lemma toFixed_2_finite fts s m e :
  magnitude_ge_pow10 m e 21 = false ->
  exists int frac k,
    toFixed fts (S754_finite s m e) 2
    = (if s then "-" else "") ++ int ++ "." ++ frac
    /\ String.length frac = 2%nat
    /\ int ++ frac = zeros k ++ digits (nearest_scaled m e 2).
Proof.
  intros Hsmall. unfold toFixed. rewrite Hsmall.
  destruct (fixed_point_2 (nearest_scaled m e 2))
    as (int & frac & k & Hprint & Hfrac & _ & Hdigits).
  exists int, frac, k. rewrite Hprint. auto.
Qed.

Lemma month_day_range day :
  1 <= fst (JSDate.month_day day) <= 12 /\ 1 <= snd (JSDate.month_day day) <= 31.
Proof.
  unfold JSDate.month_day. cbv zeta. cbn [fst snd].
  destruct (_ <? 10) eqn:E; [apply Z.ltb_lt in E|apply Z.ltb_ge in E];
    Z.div_mod_to_equations; lia.
Qed.


(** ** The proxy route *)

Section RouteProperties.
Import Route.

Lemma GET_try_failed fetched :
  upstream_failed fetched = true -> exists e, GET_try fetched = Throw e.
Proof.
  destruct fetched as [response|e]; simpl; [|eauto].
  destruct (ok response); simpl; [|eauto].
  destruct (json response); simpl; [discriminate|eauto].
Qed.

Lemma GET_try_succeeded fetched :
  upstream_failed fetched = false ->
  exists response B,
    fetched = Return response /\ ok response = true
    /\ json response = Return B
    /\ GET_try fetched = Return {| body := stringify B; http_status := 200 |}.
Proof.
  destruct fetched as [response|e]; simpl; [|discriminate].
  destruct (ok response) eqn:Hok; simpl; [|discriminate].
  destruct (json response) as [B|e] eqn:Hjson; simpl; [|discriminate].
  intros _. exists response, B. rewrite Hok, Hjson. simpl. auto.
Qed.

(** C1. Whenever the upstream call fails (the fetch rejects, the status
    is not 2xx, or reading the body throws), the handler answers with
    the body [{ error: "Failed to fetch data from DefiLlama" }] and
    status 500; and every answer of the handler is either that envelope
    or the status-200 pass-through of a successful upstream call, so no
    other error answer exists. *)
Theorem GET_error_envelope fetched :
  upstream_failed fetched = true ->
  fst (GET fetched)
  = {| body := JObject [("error", JString "Failed to fetch data from DefiLlama")];
       http_status := 500 |}
  /\ forall fetched',
       fst (GET fetched') = fst (GET fetched)
       \/ (upstream_failed fetched' = false /\ http_status (fst (GET fetched')) = 200).
Proof.
  intros Hfail.
  assert (Henv : fst (GET fetched) = error_envelope).
  { destruct (GET_try_failed _ Hfail) as [e He]. unfold GET. now rewrite He. }
  split; [exact Henv|].
  intros fetched'. rewrite Henv.
  destruct (upstream_failed fetched') eqn:Hf'.
  - left. destruct (GET_try_failed _ Hf') as [e He]. unfold GET. now rewrite He.
  - right. split; [reflexivity|].
    destruct (GET_try_succeeded _ Hf') as (response & B & _ & _ & _ & Htry).
    unfold GET. now rewrite Htry.
Qed.

Lemma GET_error_envelope_witness :
  upstream_failed (Return {| status := 404; json := Return JNull |}) = true
  /\ http_status (fst (GET (Return {| status := 404; json := Return JNull |}))) = 500.
Proof.
  split; [reflexivity|].
  destruct (GET_error_envelope (Return {| status := 404; json := Return JNull |})
              eq_refl) as [H _].
  rewrite H. reflexivity.
Defined.

Lemma stringify_plain data : plain_numbers data = true -> stringify data = data.
Proof.
  revert data. fix IH 1.
  intros [|b|[[|]|s| |s m e]|str|items|members]; cbn [plain_numbers stringify];
    intros H; try reflexivity; try discriminate H.
  - f_equal. induction items as [|item items IHitems]; [reflexivity|].
    cbn [forallb map] in *. apply andb_true_iff in H. destruct H as [Hi Hitems].
    rewrite (IH item Hi), (IHitems Hitems). reflexivity.
  - f_equal. induction members as [|[key value] members IHmembers]; [reflexivity|].
    cbn [forallb map fst snd] in *. apply andb_true_iff in H.
    destruct H as [Hv Hmembers].
    rewrite (IH value Hv), (IHmembers Hmembers). reflexivity.
Qed.

(** C2, as the code has it. When the upstream answers with a 2xx status
    and a body that parses to the JSON document [B], the handler answers
    with status 200 and with [B] as [JSON.stringify] writes it, and logs
    nothing.  That is [B] itself whenever every number in [B] is finite
    and not [-0]; a number that overflowed to an infinity when it was
    parsed is sent as [null], and [-0] as [0]. *)
Theorem GET_passthrough response B :
  200 <= status response <= 299 ->
  json response = Return B ->
  GET (Return response) = ({| body := stringify B; http_status := 200 |}, [])
  /\ 200 <= http_status (fst (GET (Return response))) <= 299
  /\ (plain_numbers B = true -> body (fst (GET (Return response))) = B).
Proof.
  intros Hstatus Hjson.
  assert (Hok : ok response = true).
  { unfold ok. apply andb_true_iff. split; apply Z.leb_le; lia. }
  assert (HGET : GET (Return response)
                 = ({| body := stringify B; http_status := 200 |}, [])).
  { unfold GET, GET_try. simpl. rewrite Hok, Hjson. reflexivity. }
  split; [exact HGET|]. rewrite HGET. cbn [fst http_status body].
  split; [lia|apply stringify_plain].
Qed.

Lemma GET_passthrough_witness :
  GET (Return {| status := 200;
                 json := Return (JObject [("name", JString "PumpSwap");
                                          ("tvl", JNumber (of_Z 1234567))]) |})
  = ({| body := JObject [("name", JString "PumpSwap");
                         ("tvl", JNumber (of_Z 1234567))];
        http_status := 200 |}, []).
Proof.
  refine (proj1 (GET_passthrough
                   {| status := 200;
                      json := Return (JObject [("name", JString "PumpSwap");
                                               ("tvl", JNumber (of_Z 1234567))]) |}
                   _ _ eq_refl)).
  simpl. lia.
Defined.

(** C2, as stated, fails: the upstream body [1e400] is valid JSON and
    parses to [Infinity]; the handler answers 200 with the body [null].
    Likewise the body [-0] is answered with [0]. *)
Lemma GET_overflow_sent_as_null :
  body (fst (GET (Return {| status := 200;
                            json := Return (JNumber (S754_infinity false)) |})))
  = JNull
  /\ body (fst (GET (Return {| status := 200;
                               json := Return (JNumber (S754_infinity false)) |})))
     <> JNumber (S754_infinity false)
  /\ body (fst (GET (Return {| status := 200;
                               json := Return (JNumber (S754_zero true)) |})))
     = JNumber (S754_zero false).
Proof.
  split; [reflexivity|]. split; [discriminate|reflexivity].
Qed.

End RouteProperties.

(** ** The detail page: state *)

Lemma dispatch_chartData a st : chartData (dispatch a st) = chartData st.
Proof. destruct a; reflexivity. Qed.

Lemma step_chartData st st' : step st st' -> chartData st' = chartData st.
Proof. intros H; destruct H; apply dispatch_chartData. Qed.

Lemma reachable_chartData st : reachable st -> chartData st = [].
Proof.
  induction 1 as [|st st' _ IH Hstep]; [reflexivity|].
  rewrite (step_chartData _ _ Hstep). exact IH.
Qed.

(** Every setter call of the mount effect is a step, so the state after
    the effect is reachable. *)
Lemma fetchData_reachable fetched st :
  reachable st -> reachable (run (Client.fetchData fetched) st).
Proof.
  intros Hst. unfold Client.fetchData.
  destruct (Client.fetchData_try fetched) as [result|e];
    unfold run; cbn [app fold_left].
  - apply reachable_step with (st := dispatch (setData result) st).
    + apply reachable_step with (st := st); [exact Hst|apply step_setData].
    + apply step_setLoading.
  - apply reachable_step
      with (st := dispatch (setError (Some "Failed to load PumpSwap data")) st).
    + apply reachable_step with (st := st); [exact Hst|apply step_setError].
    + apply step_setLoading.
Qed.

(** The mount effect always ends with [loading] false, and sets exactly
    one of [data] and [error]. *)
Lemma fetchData_outcome fetched :
  let st := run (Client.fetchData fetched) initial in
  loading st = false
  /\ ((exists result, Client.fetchData_try fetched = Return result
                      /\ data st = result /\ error st = None)
      \/ ((exists e, Client.fetchData_try fetched = Throw e)
          /\ data st = None /\ error st = Some "Failed to load PumpSwap data")).
Proof.
  unfold Client.fetchData.
  destruct (Client.fetchData_try fetched) as [result|e]; simpl; split;
    try reflexivity; [left|right]; eauto.
Qed.

(** ** The detail page: rendering *)

Section PageProperties.

(** The host: [Number::toString] on finite non-zero numbers and the
    offset of the local time zone. *)
Variable fts : bool -> positive -> Z -> string.
Variable tz : Z -> Z.

Lemma chain_cards_no_Line entries :
  existsb mounts_Line (map chain_card entries) = false.
Proof.
  induction entries as [|[chain value] entries IH]; [reflexivity|].
  simpl. exact IH.
Qed.

Lemma chain_distribution_no_Line d :
  existsb mounts_Line (chain_distribution d) = false.
Proof.
  unfold chain_distribution.
  destruct (chainTvls d) as [entries|]; [|reflexivity].
  destruct (0 <? _); [|reflexivity].
  simpl. rewrite chain_cards_no_Line. reflexivity.
Qed.

Lemma header_no_Line d : mounts_Line (header fts d) = false.
Proof.
  unfold header. destruct (name d), (tvl d) as [v|]; simpl;
    try reflexivity; destruct (ToBoolean v); reflexivity.
Qed.

Lemma information_card_no_Line d : mounts_Line (information_card d) = false.
Proof.
  unfold information_card. destruct (description d), (category d); reflexivity.
Qed.

Lemma performance_card_no_Line d : mounts_Line (performance_card fts d) = false.
Proof. reflexivity. Qed.

(** The page mounts the chart exactly when it shows the ready content
    and there is at least one chart point. *)
Lemma ready_content_Line st d :
  existsb mounts_Line (ready_content fts tz st d)
  = negb (Nat.eqb (List.length (chartData st)) 0).
Proof.
  unfold ready_content. rewrite existsb_app, chain_distribution_no_Line.
  cbn [existsb]. rewrite header_no_Line.
  cbn [mounts_Line existsb]. rewrite information_card_no_Line, performance_card_no_Line.
  unfold chart_card, chart_area, tab_button. cbn [mounts_Line existsb orb].
  destruct (chartData st) as [|c cs]; [reflexivity|].
  cbn [List.length]. rewrite Nat2Z.inj_succ.
  destruct (0 <? Z.succ _) eqn:E; [reflexivity|apply Z.ltb_ge in E; lia].
Qed.

Lemma page_no_Line st : chartData st = [] -> mounts_Line (PumpSwapPage fts tz st) = false.
Proof.
  intros Hempty. unfold PumpSwapPage, content.
  cbn [mounts_Line existsb orb].
  assert (Hready : forall d, existsb mounts_Line (ready_content fts tz st d) = false).
  { intros d. rewrite ready_content_Line, Hempty. reflexivity. }
  destruct (loading st); [reflexivity|].
  destruct (error st) as [e|]; [destruct (ToBoolean_string e); [reflexivity|]|];
    (destruct (data st) as [d|]; [rewrite Hready|]; reflexivity).
Qed.

(** C4. In every state the page can reach from its initial state, by
    the setter calls of the mount effect and by clicks on the tab
    buttons, the chart-point list is still the empty list it was
    initialised with, and the rendered page does not mount the chart
    component. *)
Theorem chart_points_stay_empty st :
  reachable st ->
  chartData initial = []
  /\ chartData st = []
  /\ mounts_Line (PumpSwapPage fts tz st) = false.
Proof.
  intros Hreach. split; [reflexivity|].
  pose proof (reachable_chartData st Hreach) as Hempty.
  split; [exact Hempty|apply page_no_Line, Hempty].
Qed.

(** *** Where the parts of the ready page sit *)

Lemma content_ready st d :
  ready st d -> content fts tz st = ready_content fts tz st d.
Proof.
  intros (Hl & He & Hd). unfold content. rewrite Hl, He, Hd. reflexivity.
Qed.

Lemma occurs_trans a b c : occurs a b -> occurs b c -> occurs a c.
Proof.
  intros Hab Hbc. induction Hbc; [exact Hab|..].
  - eapply occurs_Elem; eauto.
  - eapply occurs_Link; eauto.
  - eapply occurs_Button; eauto.
Qed.

Lemma occurs_child tag cls cs c : In c cs -> occurs c (Elem tag cls cs).
Proof. intros H. eapply occurs_Elem; [exact H|apply occurs_here]. Qed.

Lemma occurs_content st c :
  In c (content fts tz st) -> occurs c (PumpSwapPage fts tz st).
Proof.
  intros H. unfold PumpSwapPage.
  eapply occurs_Elem; [right; left; reflexivity|].
  apply occurs_child, H.
Qed.

Lemma header_in_page st d :
  ready st d -> occurs (header fts d) (PumpSwapPage fts tz st).
Proof.
  intros Hr. apply occurs_content. rewrite (content_ready _ _ Hr).
  left; reflexivity.
Qed.

Lemma chart_area_in_page st d :
  ready st d -> occurs (chart_area tz (chartData st)) (PumpSwapPage fts tz st).
Proof.
  intros Hr. eapply occurs_trans; [|apply occurs_content;
    rewrite (content_ready _ _ Hr); right; left; reflexivity].
  unfold chart_card.
  eapply occurs_Elem; [left; reflexivity|].
  apply occurs_child. right; left; reflexivity.
Qed.

Lemma performance_card_in_page st d :
  ready st d -> occurs (performance_card fts d) (PumpSwapPage fts tz st).
Proof.
  intros Hr. eapply occurs_trans; [|apply occurs_content;
    rewrite (content_ready _ _ Hr); right; right; left; reflexivity].
  apply occurs_child. right; left; reflexivity.
Qed.

Lemma change_badge_in_card d period change :
  In (period, change)
     [("24h", change_1d d); ("7d", change_7d d); ("30d", change_1m d)] ->
  occurs (change_badge fts period change) (performance_card fts d).
Proof.
  intros Hin. unfold performance_card.
  eapply occurs_Elem; [right; left; reflexivity|].
  apply occurs_child.
  change [change_badge fts "24h" (change_1d d);
          change_badge fts "7d" (change_7d d);
          change_badge fts "30d" (change_1m d)]
    with (map (fun pc => change_badge fts (fst pc) (snd pc))
            [("24h", change_1d d); ("7d", change_7d d); ("30d", change_1m d)]).
  change (change_badge fts period change)
    with ((fun pc => change_badge fts (fst pc) (snd pc)) (period, change)).
  apply in_map, Hin.
Qed.

Lemma not_In_existsb s l : existsb (String.eqb s) l = false -> ~ In s l.
Proof.
  intros Hex Hin.
  assert (existsb (String.eqb s) l = true) as Htrue
    by (apply existsb_exists; exists s; split; [exact Hin|apply String.eqb_refl]).
  congruence.
Qed.

(** *** The chart *)

Lemma slice_last_30 {A} (l : list A) :
  slice l (-30) = skipn (List.length l - 30) l.
Proof.
  unfold slice. cbn [Z.ltb Z.compare]. f_equal. lia.
Qed.

(** C7. For every chart-point list, [prepareChartData] works on its
    last [min 30 length] entries, in their order: the labels are the
    month/day strings of those entries' dates (seconds, turned into
    milliseconds for [Date]) and the one dataset holds those entries'
    [totalLiquidityUSD] values. *)
Theorem prepareChartData_last_30 (points : list ChartDataPoint) :
  exists older recent,
    points = (older ++ recent)%list
    /\ List.length recent = Nat.min 30 (List.length points)
    /\ labels (prepareChartData tz points)
       = map (fun item =>
                JSDate.toLocaleDateString_month_day tz
                  (JSDate.TimeClip (mul (date item) (of_Z 1000))))
             recent
    /\ exists ds,
         datasets (prepareChartData tz points) = [ds]
         /\ ds_data ds = map totalLiquidityUSD recent.
Proof.
  exists (firstn (List.length points - 30) points),
         (skipn (List.length points - 30) points).
  split; [symmetry; apply firstn_skipn|].
  split; [rewrite length_skipn; lia|].
  unfold prepareChartData. rewrite slice_last_30. cbn [labels datasets].
  split; [reflexivity|].
  eexists. split; reflexivity.
Qed.

(** C6, as the code has it. When the page is ready and the chart-point
    list is empty, the chart box holds the placeholder text
    ["No chart data available"] and the page does not mount the chart
    component. *)
Theorem empty_chart_placeholder st d :
  ready st d ->
  chartData st = [] ->
  occurs (chart_placeholder "No chart data available") (PumpSwapPage fts tz st)
  /\ mounts_Line (PumpSwapPage fts tz st) = false.
Proof.
  intros Hr Hempty. split; [|apply page_no_Line, Hempty].
  pose proof (chart_area_in_page st d Hr) as Hocc.
  rewrite Hempty in Hocc. exact Hocc.
Qed.

(** *** No data *)

(** C8, as the code has it. When the page's fetch resolves with an ok
    response whose body is [null], the page shows ["No data available"]
    and nothing else in its container; when the body is the empty
    object, which is truthy, it shows the ready content. *)
Theorem null_snapshot_no_data response :
  Client.ok response = true ->
  (Client.json response = Return None ->
   content fts tz (run (Client.fetchData (Return response)) initial)
   = [Elem "p" "" [Text "No data available"]])
  /\ (Client.json response = Return (Some empty_snapshot) ->
      let st := run (Client.fetchData (Return response)) initial in
      content fts tz st = ready_content fts tz st empty_snapshot).
Proof.
  intros Hok.
  split; intros Hjson; unfold Client.fetchData, Client.fetchData_try;
    simpl; rewrite Hok, Hjson; reflexivity.
Qed.

(** *** The chain distribution *)


(** *** The badges *)

(** What a badge shows for a truthy change value: the green style when
    the value is [>= 0] and the red style otherwise, and the value
    as printed by [toFixed(2)] followed by a percent sign. *)
Lemma change_badge_truthy period x :
  ToBoolean x = true ->
  change_badge fts period (Some x)
  = (if ge0 x then green_badge else red_badge) period (toFixed fts x 2 ++ "%").
Proof.
  intros Hx. unfold change_badge, is_gain. rewrite Hx. cbn [andb].
  destruct (ge0 x); reflexivity.
Qed.

Lemma change_badge_absent period :
  change_badge fts period None = red_badge period "N/A".
Proof. reflexivity. Qed.

(** C10. When a change field of a ready snapshot is present with the
    value zero (of either sign), its badge in the performance card is
    in the red style with the text ["N/A"], exactly the badge of an
    absent field. *)
Theorem zero_change_shows_NA st d period change s :
  ready st d ->
  In (period, change)
     [("24h", change_1d d); ("7d", change_7d d); ("30d", change_1m d)] ->
  change = Some (S754_zero s) ->
  occurs (red_badge period "N/A") (PumpSwapPage fts tz st)
  /\ change_badge fts period change = red_badge period "N/A"
  /\ change_badge fts period change = change_badge fts period None.
Proof.
  intros Hr Hin ->.
  assert (Hbadge : change_badge fts period (Some (S754_zero s))
                   = red_badge period "N/A") by reflexivity.
  split; [|split; [exact Hbadge|reflexivity]].
  rewrite <- Hbadge.
  eapply occurs_trans; [apply change_badge_in_card, Hin|].
  apply performance_card_in_page, Hr.
Qed.

(** C3, at the input where the code departs from it. With
    [change_1d = 0] the value is present and [0 >= 0] holds, yet the
    24h badge is in the red style and reads ["N/A"]; it is not the
    green badge reading ["0.00%"]. *)
Theorem zero_change_badge_not_green :
  ge0 (of_Z 0) = true
  /\ toFixed fts (of_Z 0) 2 ++ "%" = "0.00%"
  /\ change_badge fts "24h" (Some (of_Z 0)) = red_badge "24h" "N/A"
  /\ change_badge fts "24h" (Some (of_Z 0)) <> green_badge "24h" "0.00%".
Proof.
  split; [reflexivity|]. split; [reflexivity|]. split; [reflexivity|].
  discriminate.
Qed.

(** *** The header *)

Lemma header_name d n :
  name d = Some n ->
  occurs (Elem "h1" "text-3xl font-bold" [Text n]) (header fts d).
Proof.
  intros Hn. unfold header. rewrite Hn.
  apply occurs_child. left; reflexivity.
Qed.

(** What the header shows for a truthy [tvl]. *)
Lemma header_truthy_tvl d v :
  tvl d = Some v -> ToBoolean v = true ->
  header fts d
  = Elem "div"
      "flex flex-col md:flex-row justify-between items-start md:items-center mb-6"
      [Elem "h1" "text-3xl font-bold" (child_string (name d));
       Elem "div" "mt-2 md:mt-0"
         [Elem "p" "text-sm text-gray-500" [Text "Total Value Locked"];
          Elem "p" "text-2xl font-bold" [Text (Intl.format_currency_USD v)]]].
Proof.
  intros Hv Ht. unfold header. rewrite Hv, Ht. reflexivity.
Qed.

(** C5, at the input where the code departs from it. With [tvl = 0]
    the field is present, yet the header holds the name and the bare
    text ["0"]: the currency string ["$0"] is not shown. *)
Theorem header_zero_tvl :
  let d := {| name := Some "PumpSwap"; description := None;
              tvl := Some (of_Z 0); chainTvls := None;
              change_1d := None; change_7d := None; change_1m := None;
              category := None; tvlPrevDay := None; tvlPrevWeek := None;
              tvlPrevMonth := None |} in
  header fts d
  = Elem "div"
      "flex flex-col md:flex-row justify-between items-start md:items-center mb-6"
      [Elem "h1" "text-3xl font-bold" [Text "PumpSwap"]; Text "0"]
  /\ formatCurrency (of_Z 0) = "$0"
  /\ ~ In "$0" (texts (header fts d)).
Proof.
  cbv zeta. split; [reflexivity|]. split; [reflexivity|].
  apply not_In_existsb. reflexivity.
Qed.

End PageProperties.

(** ** Worked examples *)

Lemma after_fetch_ready d : ready (after_fetch (Some d)) d.
Proof. repeat split. Qed.

Lemma chart_points_stay_empty_witness :
  reachable (after_fetch (Some sample_snapshot))
  /\ chartData (after_fetch (Some sample_snapshot)) = []
  /\ mounts_Line
       (PumpSwapPage no_finite_toString UTC (after_fetch (Some sample_snapshot)))
     = false.
Proof.
  assert (Hreach : reachable (after_fetch (Some sample_snapshot)))
    by apply fetchData_reachable, reachable_initial.
  split; [exact Hreach|].
  exact (proj2 (chart_points_stay_empty no_finite_toString UTC _ Hreach)).
Defined.

Lemma empty_chart_placeholder_witness :
  occurs (chart_placeholder "No chart data available")
    (PumpSwapPage no_finite_toString UTC (after_fetch (Some sample_snapshot))).
Proof.
  exact (proj1 (empty_chart_placeholder no_finite_toString UTC
                  (after_fetch (Some sample_snapshot)) sample_snapshot
                  (after_fetch_ready sample_snapshot) eq_refl)).
Defined.

(** C6, as stated, fails: with an empty chart-point list the ready page
    shows ["No chart data available"]; the text
    ["No data chart available"] is nowhere on it. *)
Lemma placeholder_text_as_stated_absent :
  chartData (after_fetch (Some sample_snapshot)) = []
  /\ In "No chart data available"
       (texts (PumpSwapPage no_finite_toString UTC
                 (after_fetch (Some sample_snapshot))))
  /\ ~ In "No data chart available"
         (texts (PumpSwapPage no_finite_toString UTC
                   (after_fetch (Some sample_snapshot)))).
Proof.
  split; [reflexivity|]. split.
  - vm_compute. tauto.
  - apply not_In_existsb. vm_compute. reflexivity.
Qed.

Lemma null_snapshot_no_data_witness :
  texts (PumpSwapPage no_finite_toString UTC (after_fetch None))
  = ["‚Üê Back to Home"; "No data available"].
Proof.
  unfold PumpSwapPage, after_fetch.
  rewrite (proj1 (null_snapshot_no_data no_finite_toString UTC
                    {| Client.ok := true; Client.json := Return None |}
                    eq_refl) eq_refl).
  reflexivity.
Defined.

(** C8, as stated, fails: after a successful fetch of the empty object
    the page does not show ["No data available"]; it shows the ready
    content, here the performance card with three ["N/A"] badges. *)
Lemma empty_snapshot_shows_ready_content :
  ~ In "No data available"
      (texts (PumpSwapPage no_finite_toString UTC
                (after_fetch (Some empty_snapshot))))
  /\ occurs (performance_card no_finite_toString empty_snapshot)
       (PumpSwapPage no_finite_toString UTC (after_fetch (Some empty_snapshot))).
Proof.
  split.
  - apply not_In_existsb. vm_compute. reflexivity.
  - apply performance_card_in_page, after_fetch_ready.
Qed.


Lemma zero_change_shows_NA_witness :
  occurs (red_badge "7d" "N/A")
    (PumpSwapPage no_finite_toString UTC (after_fetch (Some sample_snapshot))).
Proof.
  refine (proj1 (zero_change_shows_NA no_finite_toString UTC
                   (after_fetch (Some sample_snapshot)) sample_snapshot
                   "7d" (Some (of_Z 0)) false
                   (after_fetch_ready sample_snapshot) _ eq_refl)).
  right; left; reflexivity.
Defined.

(** * Further properties of the code *)

(** ** The route's log and the page's mount effect *)

(** X1. The handler writes to the log exactly when the upstream call
    failed, and then one line: the fixed message with the caught value,
    which for a non-2xx answer names the upstream status.  The status
    and the caught value go to the log only; the answer is the same
    envelope for every failure. *)
Theorem GET_log fetched :
  (Route.upstream_failed fetched = false <-> snd (Route.GET fetched) = [])
  /\ (Route.upstream_failed fetched = true ->
      fst (Route.GET fetched) = Route.error_envelope
      /\ exists e,
           snd (Route.GET fetched) = [("Error fetching DefiLlama data:", e)]
           /\ match fetched with
              | Throw e' => e = e'
              | Return response =>
                  if Route.ok response then Route.json response = Throw e
                  else e = "Failed to fetch data: "
                           ++ integer_toString (Route.status response)
              end).
Proof.
  unfold Route.GET, Route.GET_try, Route.upstream_failed.
  destruct fetched as [response|e']; simpl.
  - destruct (Route.ok response); simpl.
    + destruct (Route.json response) as [B|e]; simpl.
      * split; [tauto|discriminate].
      * split; [split; discriminate|]. intros _. split; [reflexivity|].
        exists e. auto.
    + split; [split; discriminate|]. intros _. split; [reflexivity|].
      eexists. split; reflexivity.
  - split; [split; discriminate|]. intros _. split; [reflexivity|].
    exists e'. auto.
Qed.

Lemma GET_log_witness :
  snd (Route.GET (Return {| Route.status := 503; Route.json := Return Route.JNull |}))
  = [("Error fetching DefiLlama data:", "Failed to fetch data: 503")].
Proof.
  destruct (proj2 (GET_log (Return {| Route.status := 503;
                                      Route.json := Return Route.JNull |}))
              eq_refl) as (_ & e & Hlog & He).
  simpl in He. rewrite Hlog, He. reflexivity.
Defined.

(** X2. One run of the mount effect from the initial state always ends
    with [loading] false and touches neither the chart points nor the
    active tab.  If the fetch answered ok with a body that parses, [data]
    is that body and no error is recorded; in every other case (the fetch
    rejected, the answer is not ok, the body does not parse) [data] stays
    [null] and [error] is the fixed message. *)
Theorem mount_effect_result fetched :
  let st := run (Client.fetchData fetched) initial in
  loading st = false /\ chartData st = [] /\ activeTab st = "tvl"
  /\ match fetched with
     | Return {| Client.ok := true; Client.json := Return result |} =>
         fetch_failed fetched = false /\ data st = result /\ error st = None
     | _ =>
         fetch_failed fetched = true /\ data st = None
         /\ error st = Some "Failed to load PumpSwap data"
     end.
Proof.
  destruct fetched as [[[|] [result|e]]|e]; cbv zeta; repeat split.
Qed.

(** X3. Until the [finally] block has run, the page still shows the
    loading message: the effect makes two setter calls, the second being
    [setLoading(false)], and after the first one alone the page content
    is what it was initially. *)
Theorem loading_until_finally fts tz fetched :
  exists a,
    Client.fetchData fetched = [a; setLoading false]
    /\ content fts tz (dispatch a initial) = content fts tz initial
    /\ content fts tz initial
       = [Elem "div" "flex justify-center items-center h-64"
            [Elem "p" "" [Text "Loading data..."]]].
Proof.
  unfold Client.fetchData.
  destruct (Client.fetchData_try fetched) as [result|e]; eexists;
    repeat split.
Qed.

(** X4. After a failed fetch the page consists of the back link and the
    error message in red, and of nothing else. *)
Theorem failed_fetch_page fts tz fetched :
  fetch_failed fetched = true ->
  PumpSwapPage fts tz (run (Client.fetchData fetched) initial)
  = Elem "div" "min-h-screen p-8 bg-gray-50"
      [Link "/" "text-blue-500 hover:underline mb-4 inline-block"
         [Text "‚Üê Back to Home"];
       Elem "div" "max-w-6xl mx-auto"
         [Elem "p" "text-red-500" [Text "Failed to load PumpSwap data"]]].
Proof.
  intros Hfail.
  destruct fetched as [[[|] [result|e]]|e]; try discriminate Hfail;
    reflexivity.
Qed.

Lemma failed_fetch_page_witness :
  texts (PumpSwapPage no_finite_toString UTC
           (run (Client.fetchData (Throw "network error")) initial))
  = ["‚Üê Back to Home"; "Failed to load PumpSwap data"].
Proof.
  rewrite (failed_fetch_page no_finite_toString UTC (Throw "network error")
             eq_refl).
  reflexivity.
Defined.

(** X5. The route and the page together: whenever the upstream call
    fails, the route's answer is not ok for the page's fetch, so the page
    ends with the error message as its only content, whatever the body
    would decode to; and when the upstream answers 2xx with a document
    [B], the page reads [B] as the route serialised it, and if that
    decodes to a snapshot the page ends ready with that snapshot. *)
Theorem route_then_page fts tz decode upstream :
  (Route.upstream_failed upstream = true ->
   content fts tz (page_after decode upstream)
   = [Elem "p" "text-red-500" [Text "Failed to load PumpSwap data"]])
  /\ (forall response B d,
        upstream = Return response ->
        Route.ok response = true ->
        Route.json response = Return B ->
        decode (Route.stringify B) = Return (Some d) ->
        ready (page_after decode upstream) d).
Proof.
  split.
  - intros Hfail.
    destruct (GET_try_failed _ Hfail) as [e He].
    unfold page_after, Route.GET. rewrite He. reflexivity.
  - intros response B d -> Hok Hjson Hdec.
    unfold page_after, Route.GET, Route.GET_try. simpl.
    rewrite Hok, Hjson. simpl.
    unfold Client.fetchData, Client.fetchData_try. simpl. rewrite Hdec.
    repeat split.
Qed.

(** The upstream document [{ "name": "PumpSwap", "tvl": 1234567,
    "change_1d": -0 }] reaches the page with [change_1d] equal to [0];
    an upstream answer 500 with the same document gives the error
    page. *)
Lemma route_then_page_witness :
  content no_finite_toString UTC
    (page_after snapshot_of_json
       (Return {| Route.status := 500;
                  Route.json :=
                    Return (Route.JObject
                              [("name", Route.JString "PumpSwap");
                               ("tvl", Route.JNumber (of_Z 1234567));
                               ("change_1d", Route.JNumber (S754_zero true))]) |}))
  = [Elem "p" "text-red-500" [Text "Failed to load PumpSwap data"]]
  /\ ready
       (page_after snapshot_of_json
          (Return {| Route.status := 200;
                     Route.json :=
                       Return (Route.JObject
                                 [("name", Route.JString "PumpSwap");
                                  ("tvl", Route.JNumber (of_Z 1234567));
                                  ("change_1d", Route.JNumber (S754_zero true))]) |}))
       {| name := Some "PumpSwap"; description := None;
          tvl := Some (of_Z 1234567); chainTvls := None;
          change_1d := Some (S754_zero false); change_7d := None;
          change_1m := None; category := None; tvlPrevDay := None;
          tvlPrevWeek := None; tvlPrevMonth := None |}.
Proof.
  split.
  - exact (proj1 (route_then_page no_finite_toString UTC snapshot_of_json
                    (Return {| Route.status := 500;
                               Route.json :=
                                 Return (Route.JObject
                                           [("name", Route.JString "PumpSwap");
                                            ("tvl", Route.JNumber (of_Z 1234567));
                                            ("change_1d",
                                             Route.JNumber (S754_zero true))]) |}))
             eq_refl).
  - exact (proj2 (route_then_page no_finite_toString UTC snapshot_of_json
                    (Return {| Route.status := 200;
                               Route.json :=
                                 Return (Route.JObject
                                           [("name", Route.JString "PumpSwap");
                                            ("tvl", Route.JNumber (of_Z 1234567));
                                            ("change_1d",
                                             Route.JNumber (S754_zero true))]) |}))
             _ _ _ eq_refl eq_refl eq_refl eq_refl).
Defined.

(** ** Tabs, links and the chart in the whole page *)

Section PageParts.

Variable fts : bool -> positive -> Z -> string.
Variable tz : Z -> Z.

Lemma chain_cards_plain {A} (f : node -> list A) entries :
  (forall tag cls cs, f (Elem tag cls cs) = flat_map f cs) ->
  (forall s, f (Text s) = []) ->
  flat_map f (map chain_card entries) = [].
Proof.
  intros HElem HText.
  induction entries as [|[chain value] entries IH]; [reflexivity|].
  cbn [map flat_map chain_card]. rewrite IH, !HElem. cbn [flat_map].
  rewrite !HElem. cbn [flat_map]. rewrite !HText. reflexivity.
Qed.

(** Outside the chart card the ready content has neither links nor
    buttons. *)
Lemma ready_content_plain {A} (f : node -> list A) st d :
  (forall tag cls cs, f (Elem tag cls cs) = flat_map f cs) ->
  (forall s, f (Text s) = []) ->
  flat_map f (ready_content fts tz st d) = f (chart_card tz st).
Proof.
  intros HElem HText.
  assert (Hchain : flat_map f (chain_distribution d) = []).
  { unfold chain_distribution. destruct (chainTvls d) as [entries|]; [|reflexivity].
    destruct (0 <? _); [|reflexivity].
    cbn [flat_map]. rewrite HElem. cbn [flat_map]. rewrite !HElem.
    rewrite chain_cards_plain by assumption.
    cbn [flat_map]. rewrite HText. reflexivity. }
  assert (Hheader : f (header fts d) = []).
  { unfold header. rewrite HElem. cbn [flat_map]. rewrite HElem.
    destruct (name d), (tvl d) as [v|]; cbn [child_string flat_map app];
      rewrite ?HText; try reflexivity;
      destruct (ToBoolean v); cbn [flat_map app];
      rewrite ?HElem; cbn [flat_map app]; rewrite ?HElem; cbn [flat_map app];
      rewrite ?HText; reflexivity. }
  assert (Hinfo : f (information_card d) = []).
  { unfold information_card. rewrite HElem. cbn [flat_map]. rewrite !HElem.
    cbn [flat_map]. rewrite HElem, !HText. cbn [flat_map app].
    rewrite HText.
    destruct (description d), (category d); cbn [child_string flat_map app];
      rewrite ?HText; reflexivity. }
  assert (Hperf : f (performance_card fts d) = []).
  { unfold performance_card, change_badge. rewrite HElem. cbn [flat_map].
    rewrite !HElem. cbn [flat_map]. rewrite !HElem. cbn [flat_map].
    rewrite !HElem. cbn [flat_map]. rewrite !HText. reflexivity. }
  unfold ready_content. rewrite flat_map_app, Hchain. cbn [flat_map].
  rewrite Hheader, HElem. cbn [flat_map]. rewrite Hinfo, Hperf.
  cbn [app]. rewrite !app_nil_r. reflexivity.
Qed.

Lemma page_plain {A} (f : node -> list A) st :
  (forall tag cls cs, f (Elem tag cls cs) = flat_map f cs) ->
  (forall s, f (Text s) = []) ->
  flat_map f (content fts tz st)
  = if shows_ready st then f (chart_card tz st) else [].
Proof.
  intros HElem HText. unfold content, shows_ready.
  assert (Hp : forall cls s, f (Elem "p" cls [Text s]) = []).
  { intros. rewrite HElem. cbn [flat_map]. rewrite HText. reflexivity. }
  destruct (loading st); cbn [negb andb].
  { cbn [flat_map]. rewrite HElem. cbn [flat_map]. rewrite Hp. reflexivity. }
  destruct (error st) as [e|]; [destruct (ToBoolean_string e)|];
    cbn [negb andb];
    try (destruct (data st) as [d|];
         [apply ready_content_plain; assumption|]);
    cbn [flat_map]; rewrite Hp; reflexivity.
Qed.

Lemma page_buttons st :
  buttons (PumpSwapPage fts tz st)
  = if shows_ready st then
      map (fun tab =>
             ("px-4 py-2 rounded-md "
              ++ (if String.eqb (activeTab st) tab then "bg-green-600 text-white"
                  else "bg-gray-200"),
              setActiveTab tab))
          ["tvl"; "volume"; "fees"; "revenue"]
    else [].
Proof.
  unfold PumpSwapPage. cbn [buttons flat_map app].
  rewrite app_nil_r, page_plain by reflexivity.
  destruct (shows_ready st); [|reflexivity].
  unfold chart_card, chart_area. cbn [buttons flat_map tab_button app map].
  destruct (0 <? _); reflexivity.
Qed.

Lemma page_texts_tab st tab :
  texts (PumpSwapPage fts tz (dispatch (setActiveTab tab) st))
  = texts (PumpSwapPage fts tz st).
Proof.
  unfold PumpSwapPage, content. cbn [dispatch loading error data texts flat_map].
  destruct (loading st); [reflexivity|].
  destruct (error st) as [e|]; [destruct (ToBoolean_string e)|];
    try reflexivity; (destruct (data st) as [d|]; reflexivity).
Qed.

End PageParts.

Lemma reachable_activeTab st :
  reachable st -> In (activeTab st) ["tvl"; "volume"; "fees"; "revenue"].
Proof.
  induction 1 as [|st st' _ IH Hstep]; [left; reflexivity|].
  destruct Hstep; simpl; assumption.
Qed.

Lemma highlighted_tabs active :
  In active ["tvl"; "volume"; "fees"; "revenue"] ->
  filter
    (fun b => String.eqb (fst b) "px-4 py-2 rounded-md bg-green-600 text-white")
    (map (fun tab =>
            ("px-4 py-2 rounded-md "
             ++ (if String.eqb active tab then "bg-green-600 text-white"
                 else "bg-gray-200"),
             setActiveTab tab))
         ["tvl"; "volume"; "fees"; "revenue"])
  = [("px-4 py-2 rounded-md bg-green-600 text-white", setActiveTab active)].
Proof.
  intros [<-|[<-|[<-|[<-|[]]]]]; reflexivity.
Qed.

(** X6. In every state the page can reach, the active tab is one of the
    four tab ids; so a page that shows its ready content has exactly one
    button in the active style, the one whose click selects the tab that
    is already active, and a page that does not has no button in it. *)
Theorem one_tab_highlighted fts tz st :
  reachable st ->
  In (activeTab st) ["tvl"; "volume"; "fees"; "revenue"]
  /\ highlighted (PumpSwapPage fts tz st)
     = if shows_ready st then
         [("px-4 py-2 rounded-md bg-green-600 text-white",
           setActiveTab (activeTab st))]
       else [].
Proof.
  intros Hreach. pose proof (reachable_activeTab st Hreach) as Htab.
  split; [exact Htab|].
  unfold highlighted. rewrite page_buttons.
  destruct (shows_ready st); [apply highlighted_tabs, Htab|reflexivity].
Qed.

Lemma one_tab_highlighted_witness :
  highlighted (PumpSwapPage no_finite_toString UTC
                 (after_fetch (Some sample_snapshot)))
  = [("px-4 py-2 rounded-md bg-green-600 text-white", setActiveTab "tvl")].
Proof.
  exact (proj2 (one_tab_highlighted no_finite_toString UTC
                  (after_fetch (Some sample_snapshot))
                  (fetchData_reachable _ _ reachable_initial))).
Defined.

(** X7. A click on any button the page shows is a step of the page that
    selects one of the four tabs.  It leaves the fetch state, the chart
    points and every text of the page as they were; only the active
    style moves, to the button that was clicked. *)
Theorem tab_click fts tz st cls a :
  In (cls, a) (buttons (PumpSwapPage fts tz st)) ->
  let st' := dispatch a st in
  step st st'
  /\ (exists tab, a = setActiveTab tab /\ activeTab st' = tab)
  /\ loading st' = loading st /\ error st' = error st
  /\ data st' = data st /\ chartData st' = chartData st
  /\ texts (PumpSwapPage fts tz st') = texts (PumpSwapPage fts tz st)
  /\ highlighted (PumpSwapPage fts tz st')
     = [("px-4 py-2 rounded-md bg-green-600 text-white", a)].
Proof.
  rewrite page_buttons. destruct (shows_ready st) eqn:Hready; [|intros []].
  intros Hin. apply in_map_iff in Hin. destruct Hin as (tab & [= _ <-] & Htab).
  cbv zeta. split; [apply step_tab, Htab|].
  split; [exists tab; split; reflexivity|].
  repeat (split; [reflexivity|]).
  split; [apply page_texts_tab|].
  unfold highlighted. rewrite page_buttons.
  replace (shows_ready (dispatch (setActiveTab tab) st)) with true
    by (rewrite <- Hready; reflexivity).
  apply (highlighted_tabs tab Htab).
Qed.

Lemma tab_click_witness :
  highlighted
    (PumpSwapPage no_finite_toString UTC
       (dispatch (setActiveTab "volume") (after_fetch (Some sample_snapshot))))
  = [("px-4 py-2 rounded-md bg-green-600 text-white", setActiveTab "volume")].
Proof.
  refine (proj2 (proj2 (proj2 (proj2 (proj2 (proj2 (proj2
            (tab_click no_finite_toString UTC
               (after_fetch (Some sample_snapshot))
               "px-4 py-2 rounded-md bg-gray-200" (setActiveTab "volume")
               _)))))))).
  right; left; reflexivity.
Defined.

(** X8. The page mounts the chart component exactly when it shows its
    ready content and there is at least one chart point; while loading,
    on an error and without data it never does.  When it is ready with
    chart points, the chart it mounts is the one [prepareChartData]
    builds from them. *)
Theorem chart_mounted_iff fts tz st :
  mounts_Line (PumpSwapPage fts tz st)
  = shows_ready st && negb (Nat.eqb (List.length (chartData st)) 0)
  /\ forall d,
       ready st d -> chartData st <> [] ->
       occurs (Line (prepareChartData tz (chartData st)))
         (PumpSwapPage fts tz st).
Proof.
  split.
  - unfold PumpSwapPage, content, shows_ready. cbn [mounts_Line existsb orb].
    destruct (loading st); [reflexivity|]. cbn [negb andb].
    destruct (error st) as [e|]; [destruct (ToBoolean_string e)|];
      cbn [negb andb]; try reflexivity;
      (destruct (data st) as [d|];
       [rewrite orb_false_r; apply ready_content_Line|reflexivity]).
  - intros d Hr Hne.
    eapply occurs_trans; [|apply (chart_area_in_page fts tz st d Hr)].
    unfold chart_area. destruct (chartData st) as [|c cs]; [now elim Hne|].
    cbn [List.length]. rewrite Nat2Z.inj_succ.
    destruct (0 <? Z.succ _) eqn:E; [|apply Z.ltb_ge in E; lia].
    apply occurs_child. left; reflexivity.
Qed.

Lemma chart_mounted_iff_witness :
  mounts_Line
    (PumpSwapPage no_finite_toString UTC
       {| data := Some sample_snapshot;
          chartData := [{| date := of_Z 1700006400;
                           totalLiquidityUSD := of_Z 1234567 |}];
          loading := false; error := None; activeTab := "tvl" |})
  = true
  /\ occurs
       (Line (prepareChartData UTC
                [{| date := of_Z 1700006400;
                    totalLiquidityUSD := of_Z 1234567 |}]))
       (PumpSwapPage no_finite_toString UTC
          {| data := Some sample_snapshot;
             chartData := [{| date := of_Z 1700006400;
                              totalLiquidityUSD := of_Z 1234567 |}];
             loading := false; error := None; activeTab := "tvl" |}).
Proof.
  destruct (chart_mounted_iff no_finite_toString UTC
              {| data := Some sample_snapshot;
                 chartData := [{| date := of_Z 1700006400;
                                  totalLiquidityUSD := of_Z 1234567 |}];
                 loading := false; error := None; activeTab := "tvl" |})
    as [Hmount Hline].
  split; [rewrite Hmount; reflexivity|].
  apply (Hline sample_snapshot); [repeat split|discriminate].
Defined.

(** X9. The home page links to the detail page and nowhere else, and the
    detail page, in every state, links back to the home page and
    nowhere else. *)
Theorem page_links fts tz st :
  hrefs Home = ["/pumpswap"]
  /\ hrefs (PumpSwapPage fts tz st) = ["/"].
Proof.
  split; [reflexivity|].
  unfold PumpSwapPage. cbn [hrefs flat_map app].
  rewrite app_nil_r, page_plain by reflexivity.
  destruct (shows_ready st); [|reflexivity].
  unfold chart_card, chart_area. cbn [hrefs flat_map tab_button app].
  destruct (0 <? _); reflexivity.
Qed.

(** ** The chart data and the chart options *)

Lemma slice_last_30_app {A} (older recent : list A) :
  (30 <= List.length recent)%nat ->
  slice (older ++ recent) (-30) = slice recent (-30).
Proof.
  intros Hlen. rewrite !slice_last_30, length_app, skipn_app.
  rewrite skipn_all2 by lia. cbn [app]. f_equal. lia.
Qed.

(** X10. The chart is built from the last 30 points only: points in
    front of the last 30 have no influence on it; and with at most 30
    points none is dropped, the labels and the values are those of the
    whole list, in its order. *)
Theorem chart_window tz (older recent : list ChartDataPoint) :
  ((30 <= List.length recent)%nat ->
   prepareChartData tz (older ++ recent) = prepareChartData tz recent)
  /\ ((List.length recent <= 30)%nat ->
      labels (prepareChartData tz recent)
      = map (fun item => formatDate tz (date item)) recent
      /\ map ds_data (datasets (prepareChartData tz recent))
         = [map totalLiquidityUSD recent]).
Proof.
  split; intros Hlen; unfold prepareChartData.
  - rewrite slice_last_30_app by exact Hlen. reflexivity.
  - rewrite slice_last_30.
    replace (List.length recent - 30)%nat with 0%nat by lia.
    split; reflexivity.
Qed.

Lemma chart_window_witness :
  prepareChartData UTC
    ({| date := of_Z 0; totalLiquidityUSD := of_Z 7 |}
     :: repeat {| date := of_Z 1700006400; totalLiquidityUSD := of_Z 5 |} 30)
  = prepareChartData UTC
      (repeat {| date := of_Z 1700006400; totalLiquidityUSD := of_Z 5 |} 30)
  /\ labels (prepareChartData UTC
               [{| date := of_Z 1700006400; totalLiquidityUSD := of_Z 5 |}])
     = ["11/15"].
Proof.
  split.
  - refine (proj1 (chart_window UTC
                     [{| date := of_Z 0; totalLiquidityUSD := of_Z 7 |}]
                     (repeat {| date := of_Z 1700006400;
                                totalLiquidityUSD := of_Z 5 |} 30)) _).
    rewrite repeat_length. lia.
  - destruct (proj2 (chart_window UTC []
                       [{| date := of_Z 1700006400;
                           totalLiquidityUSD := of_Z 5 |}])
                ltac:(simpl; lia)) as [Hlabels _].
    rewrite Hlabels. vm_compute. reflexivity.
Defined.

(** X11. The tooltip of the chart the page builds: for the dataset of
    [prepareChartData] it reads ["Total Value Locked (TVL): "] followed
    by the value as [formatCurrency] prints it, or by nothing when the
    parsed value is [null].  Without a dataset label, or with an empty
    one, there is no separator: the tooltip is the formatted value
    alone. *)
Theorem tooltip_of_chart tz points y :
  (forall ds,
     In ds (datasets (prepareChartData tz points)) ->
     tooltip_label {| dataset_label := Some (ds_label ds); parsed_y := y |}
     = "Total Value Locked (TVL): "
       ++ match y with Some v => formatCurrency v | None => "" end)
  /\ tooltip_label {| dataset_label := None; parsed_y := y |}
     = match y with Some v => formatCurrency v | None => "" end
  /\ tooltip_label {| dataset_label := Some ""; parsed_y := y |}
     = tooltip_label {| dataset_label := None; parsed_y := y |}.
Proof.
  split; [|split; [destruct y|]; reflexivity].
  intros ds [<-|[]]. destruct y; reflexivity.
Qed.

Lemma ge_1000_false_1000000 value :
  ge value (of_Z 1000) = false -> ge value (of_Z 1000000) = false.
Proof.
  change (of_Z 1000) with (S754_finite false 8796093022208000 (-43)).
  change (of_Z 1000000) with (S754_finite false 8589934592000000 (-33)).
  unfold ge, SFleb, SFcompare.
  destruct value as [[|]|[|]| |[|] m e]; try reflexivity; try discriminate.
  destruct (Z.compare_spec (-43) e) as [<-|Hlt|Hgt]; intros H.
  - reflexivity.
  - discriminate H.
  - destruct (Z.compare_spec (-33) e) as [<-|Hlt'|Hgt']; [lia|lia|reflexivity].
Qed.

Lemma lt0_not_ge_1000 value :
  lt0 value = true -> ge value (of_Z 1000) = false.
Proof.
  change (of_Z 1000) with (S754_finite false 8796093022208000 (-43)).
  destruct value as [[|]|[|]| |[|] m e]; try reflexivity; discriminate.
Qed.

Lemma falsy_not_ge_1000 value :
  ToBoolean value = false -> ge value (of_Z 1000) = false.
Proof.
  change (of_Z 1000) with (S754_finite false 8796093022208000 (-43)).
  destruct value as [[|]|[|]| |[|] m e]; try reflexivity; discriminate.
Qed.

(** X12. The tick callback abbreviates only values that are [>= 1000].
    Every other value is printed as a dollar sign and the number
    itself: in particular every negative value, whatever its magnitude,
    and zero and [NaN]. *)
Theorem ticks_below_thousand fts value :
  ge value (of_Z 1000) = false \/ lt0 value = true \/ ToBoolean value = false ->
  ticks_callback fts value = "$" ++ toString fts value.
Proof.
  intros H.
  assert (H1000 : ge value (of_Z 1000) = false).
  { destruct H as [H|[H|H]];
      [exact H|apply lt0_not_ge_1000, H|apply falsy_not_ge_1000, H]. }
  unfold ticks_callback.
  rewrite (ge_1000_false_1000000 _ H1000), H1000. reflexivity.
Qed.

Lemma ticks_below_thousand_witness :
  ticks_callback no_finite_toString (of_Z (-5000000))
  = "$" ++ toString no_finite_toString (of_Z (-5000000))
  /\ ticks_callback no_finite_toString S754_nan = "$NaN".
Proof.
  split.
  - apply (ticks_below_thousand no_finite_toString (of_Z (-5000000))).
    right; left. reflexivity.
  - apply (ticks_below_thousand no_finite_toString S754_nan).
    left. reflexivity.
Defined.

(** ** Printed numbers *)

Lemma string_append_assoc (s1 s2 s3 : string) :
  (s1 ++ s2) ++ s3 = s1 ++ (s2 ++ s3).
Proof. induction s1 as [|c s1 IH]; simpl; congruence. Qed.

Lemma all_digits_app s1 s2 :
  all_digits (s1 ++ s2) = all_digits s1 && all_digits s2.
Proof.
  induction s1 as [|c s1 IH]; [reflexivity|].
  simpl. rewrite IH. apply andb_assoc.
Qed.

Lemma all_digits_zeros k : all_digits (zeros k) = true.
Proof. induction k as [|k IH]; [reflexivity|exact IH]. Qed.

Lemma all_digits_uint d : all_digits (NilEmpty.string_of_uint d) = true.
Proof. induction d; simpl; auto. Qed.

Lemma all_digits_digits n : all_digits (digits n) = true.
Proof.
  unfold digits, NilZero.string_of_uint.
  destruct (N.to_uint (Z.to_N n)); try reflexivity;
    apply (all_digits_uint (_ _)).
Qed.

Lemma nearest_scaled_nonneg m e f : 0 <= nearest_scaled m e f.
Proof.
  unfold nearest_scaled.
  assert (0 < 10 ^ Z.of_nat f) by (apply Z.pow_pos_nonneg; lia).
  destruct (0 <=? e) eqn:E.
  - apply Z.leb_le in E. assert (0 < 2 ^ e) by (apply Z.pow_pos_nonneg; lia). nia.
  - apply Z.leb_gt in E. apply Z.div_pos.
    + assert (0 < 2 ^ (- e)) by (apply Z.pow_pos_nonneg; lia). nia.
    + apply Z.pow_pos_nonneg; lia.
Qed.

Lemma nearest_scaled_is_nearest m e f : is_nearest (nearest_scaled m e f) m e f.
Proof.
  split; [apply nearest_scaled_nonneg|].
  destruct (0 <=? e) eqn:E.
  - apply nearest_scaled_exact, Z.leb_le, E.
  - apply nearest_scaled_half, Z.leb_gt, E.
Qed.

(** X13. The badge of a finite non-zero change below [10^21] in
    magnitude: its colour is decided by the sign alone (red for every
    negative value, however small, green otherwise), and its text is the
    sign, an integer part, a point, exactly two fraction digits and a
    percent sign, where the digits are those of the integer nearest to a
    hundred times the magnitude, a tie going to the larger magnitude. *)
Theorem badge_percentage fts period s m e :
  magnitude_ge_pow10 m e 21 = false ->
  exists int frac k n,
    change_badge fts period (Some (S754_finite s m e))
    = (if s then red_badge else green_badge) period
        ((if s then "-" else "") ++ int ++ "." ++ frac ++ "%")
    /\ String.length frac = 2%nat
    /\ (1 <= String.length int)%nat
    /\ all_digits (int ++ frac) = true
    /\ int ++ frac = zeros k ++ digits n
    /\ is_nearest n m e 2.
Proof.
  intros Hsmall.
  destruct (fixed_point_2 (nearest_scaled m e 2))
    as (int & frac & k & Hprint & Hfrac & Hint & Hdigits).
  exists int, frac, k, (nearest_scaled m e 2).
  split; [|split; [exact Hfrac|split; [exact Hint|split; [|split;
    [exact Hdigits|apply nearest_scaled_is_nearest]]]]].
  - rewrite change_badge_truthy by reflexivity.
    unfold toFixed. rewrite Hsmall, Hprint.
    destruct s; cbn [ge0 SFleb SFcompare]; f_equal;
      rewrite !string_append_assoc; reflexivity.
  - rewrite Hdigits, all_digits_app, all_digits_zeros, all_digits_digits.
    reflexivity.
Qed.

Lemma badge_percentage_witness :
  exists int frac k n,
    change_badge no_finite_toString "24h"
      (Some (S754_finite true 4611686018427388 (-62)))
    = red_badge "24h" ("-" ++ int ++ "." ++ frac ++ "%")
    /\ String.length frac = 2%nat
    /\ (1 <= String.length int)%nat
    /\ all_digits (int ++ frac) = true
    /\ int ++ frac = zeros k ++ digits n
    /\ is_nearest n 4611686018427388 (-62) 2.
Proof.
  exact (badge_percentage no_finite_toString "24h" true
           4611686018427388 (-62) eq_refl).
Defined.

(** The value of the literal [-0.001], and its badge. *)
Example small_loss_badge :
  of_decimal (-1) 3 = S754_finite true 4611686018427388 (-62)
  /\ change_badge no_finite_toString "24h" (Some (of_decimal (-1) 3))
     = red_badge "24h" "-0.00%".
Proof. split; reflexivity. Qed.

(** ** Dates *)

Lemma TimeClip_range v t :
  JSDate.TimeClip v = Some t -> - JSDate.maxTime <= t <= JSDate.maxTime.
Proof.
  unfold JSDate.TimeClip, JSDate.magnitude_gt, JSDate.maxTime.
  destruct v as [s0|s0| |s m e]; try discriminate.
  - intros [= <-]. lia.
  - destruct (0 <=? e) eqn:E.
    + destruct (_ <? _) eqn:Hgt; [discriminate|]. apply Z.ltb_ge in Hgt.
      apply Z.leb_le in E.
      assert (Hpow : 0 < 2 ^ e) by (apply Z.pow_pos_nonneg; lia).
      assert (Hq : 0 <= Z.pos m * 2 ^ e) by nia.
      remember (Z.pos m * 2 ^ e) as p.
      intros [= <-]. destruct s; lia.
    + destruct (_ <? _) eqn:Hgt; [discriminate|]. apply Z.ltb_ge in Hgt.
      apply Z.leb_gt in E.
      assert (Hpow : 0 < 2 ^ (- e)) by (apply Z.pow_pos_nonneg; lia).
      assert (Hq : 0 <= Z.pos m / 2 ^ (- e) <= 8640000000000000).
      { split; [apply Z.div_pos; lia|].
        apply Z.div_le_upper_bound; [exact Hpow|lia]. }
      remember (Z.pos m / 2 ^ (- e)) as q.
      intros [= <-]. destruct s; lia.
Qed.

(** X16. A chart label is either ["Invalid Date"] or a month from 1 to
    12, a slash and a day from 1 to 31, taken from a time value within
    the range of [Date] (8.64e15 ms either side of the epoch).  It is
    ["Invalid Date"] for the timestamps [NaN] and plus or minus
    infinity. *)
Theorem formatDate_shape tz timestamp :
  (formatDate tz timestamp = "Invalid Date"
   \/ exists t m d,
        JSDate.TimeClip (mul timestamp (of_Z 1000)) = Some t
        /\ - 8640000000000000 <= t <= 8640000000000000
        /\ 1 <= m <= 12 /\ 1 <= d <= 31
        /\ formatDate tz timestamp = digits m ++ "/" ++ digits d)
  /\ (ToBoolean timestamp = true ->
      (forall s m e, timestamp <> S754_finite s m e) ->
      formatDate tz timestamp = "Invalid Date")
  /\ formatDate tz S754_nan = "Invalid Date".
Proof.
  split; [|split; [|reflexivity]].
  - unfold formatDate, JSDate.toLocaleDateString_month_day.
    destruct (JSDate.TimeClip _) as [t|] eqn:Ht; [right|left; reflexivity].
    pose proof (month_day_range ((t + tz t) / JSDate.msPerDay)) as [Hm Hd].
    destruct (JSDate.month_day _) as [m d]. cbn [fst snd] in Hm, Hd.
    exists t, m, d. split; [reflexivity|].
    split; [exact (TimeClip_range _ _ Ht)|]. auto.
  - destruct timestamp as [s0|[|]| |s m e]; try discriminate;
      intros _ Hnot; try reflexivity.
    now elim (Hnot s m e).
Qed.

Lemma formatDate_shape_witness :
  formatDate UTC (S754_infinity true) = "Invalid Date".
Proof.
  apply (proj1 (proj2 (formatDate_shape UTC (S754_infinity true))));
    [reflexivity|discriminate].
Defined.

(** ** When a badge reads N/A *)

Lemma percent_not_NA s : s ++ "%" <> "N/A".
Proof.
  destruct s as [|a [|b [|c [|d s]]]]; simpl; intros H; discriminate H.
Qed.

(** X17. A badge is the red ["N/A"] badge exactly when its change field
    is absent or holds a falsy number (zero of either sign, or [NaN]).
    For every other value the badge is green when the value is [>= 0]
    and red otherwise, and its text is the value as [toFixed(2)] prints
    it followed by a percent sign, which is never the text ["N/A"]. *)
Theorem badge_NA_iff fts period change :
  (change_badge fts period change = red_badge period "N/A"
   <-> match change with
       | None => True
       | Some x => ToBoolean x = false
       end)
  /\ (forall x,
        change = Some x -> ToBoolean x = true ->
        change_badge fts period change
        = (if ge0 x then green_badge else red_badge) period
            (toFixed fts x 2 ++ "%")
        /\ toFixed fts x 2 ++ "%" <> "N/A"
        /\ change_badge fts period change <> green_badge period "N/A"
        /\ change_badge fts period change <> red_badge period "N/A").
Proof.
  split.
  - destruct change as [x|]; [|split; [trivial|reflexivity]].
    destruct (ToBoolean x) eqn:Hx.
    + rewrite change_badge_truthy by exact Hx. split; [|discriminate].
      unfold green_badge, red_badge. destruct (ge0 x); intros H;
        injection H as H; [discriminate H|].
      now apply percent_not_NA in H.
    + split; [reflexivity|]. intros _.
      unfold change_badge, is_gain. rewrite Hx. reflexivity.
  - intros x -> Hx. rewrite change_badge_truthy by exact Hx.
    split; [reflexivity|]. split; [apply percent_not_NA|].
    unfold green_badge, red_badge.
    split; destruct (ge0 x); intros H; injection H as H;
      try discriminate H; now apply percent_not_NA in H.
Qed.

Lemma badge_NA_iff_witness :
  change_badge no_finite_toString "24h" (Some (of_decimal (-3456) 3))
  = red_badge "24h" "-3.46%"
  /\ change_badge no_finite_toString "24h" (Some (of_decimal (-3456) 3))
     <> red_badge "24h" "N/A".
Proof.
  destruct (proj2 (badge_NA_iff no_finite_toString "24h"
                     (Some (of_decimal (-3456) 3)))
              (of_decimal (-3456) 3) eq_refl eq_refl)
    as (Hbadge & _ & _ & Hnot).
  split; [rewrite Hbadge; reflexivity|exact Hnot].
Defined.
